(** * admin-bro: the bootstrap module [src/admin-bro.js]

    A shallow embedding of the [AdminBro] class: the module-level
    [defaults] object, the constructor (options merge, resource building,
    dashboard selection), the static adapter registry, [renderLogin] and
    [findResource].

    JavaScript values are trees ([value]); the two pieces of module-level
    mutable state, the [defaults] object and the static array
    [AdminBro.registeredAdapters], are threaded explicitly through a
    [world].  Calls that can throw return an [outcome]. *)

From Stdlib Require Import List String Bool ZArith.
Import ListNotations.
Open Scope string_scope.
Open Scope list_scope.

Set Implicit Arguments.

(* ================================================================== *)
(** * JavaScript values *)
(* ================================================================== *)

(** Plain objects keep their own keys in insertion order, so they are
    association lists; arrays are element lists.  A function or class is
    held by reference and is identified by its name.  Numbers are the
    integers.

    Outside this universe: arrays with holes or with named properties,
    properties of functions, instances of classes, inherited properties,
    cyclic structures. *)
Unset Elimination Schemes.
Inductive value : Type :=
| VUndefined
| VNull
| VBool (b : bool)
| VNum (n : Z)
| VStr (s : string)
| VFun (name : string)
| VArr (elems : list value)
| VObj (props : list (string * value)).
Set Elimination Schemes.

Definition props := list (string * value).

(** The induction principle that goes through the nested lists. *)
Section value_induction.
Variable P : value -> Prop.
Hypothesis Hundef : P VUndefined.
Hypothesis Hnull : P VNull.
Hypothesis Hbool : forall b, P (VBool b).
Hypothesis Hnum : forall n, P (VNum n).
Hypothesis Hstr : forall s, P (VStr s).
Hypothesis Hfun : forall f, P (VFun f).
Hypothesis Harr : forall l, Forall P l -> P (VArr l).
Hypothesis Hobj : forall l, Forall (fun kv => P (snd kv)) l -> P (VObj l).

Fixpoint value_nested_ind (v : value) : P v :=
  match v with
  | VUndefined => Hundef
  | VNull => Hnull
  | VBool b => Hbool b
  | VNum n => Hnum n
  | VStr s => Hstr s
  | VFun f => Hfun f
  | VArr l =>
      Harr ((fix elems (l : list value) : Forall P l :=
               match l with
               | [] => Forall_nil P
               | x :: r => Forall_cons x (value_nested_ind x) (elems r)
               end) l)
  | VObj l =>
      Hobj ((fix fields (l : props) : Forall (fun kv => P (snd kv)) l :=
               match l with
               | [] => Forall_nil _
               | kv :: r =>
                   Forall_cons kv (value_nested_ind (snd kv)) (fields r)
               end) l)
  end.
End value_induction.

(** ** Property access *)

(** [key in object], for own keys. *)
Fixpoint hasKey (k : string) (o : props) : bool :=
  match o with
  | [] => false
  | (k', _) :: r => if String.eqb k k' then true else hasKey k r
  end.

Fixpoint lookup (k : string) (o : props) : option value :=
  match o with
  | [] => None
  | (k', v) :: r => if String.eqb k k' then Some v else lookup k r
  end.

(** [object[key] = v]: an existing key keeps its position, a new key goes
    last. *)
Fixpoint setKey (k : string) (v : value) (o : props) : props :=
  match o with
  | [] => [(k, v)]
  | (k', v') :: r =>
      if String.eqb k k' then (k', v) :: r else (k', v') :: setKey k v r
  end.

(** [x.key]: reading a missing property, or any property of a primitive or
    of a function, gives [undefined].  ([null.key] and [undefined.key]
    throw; the one place where the source can reach them is handled in the
    constructor.) *)
Definition get (k : string) (x : value) : value :=
  match x with
  | VObj o => match lookup k o with Some v => v | None => VUndefined end
  | _ => VUndefined
  end.

(** [k in x] for a plain object. *)
Definition has (k : string) (x : value) : bool :=
  match x with
  | VObj o => hasKey k o
  | _ => false
  end.

(** Truthiness, as used by [||] and [!]. *)
Definition truthy (x : value) : bool :=
  match x with
  | VUndefined | VNull => false
  | VBool b => b
  | VNum n => negb (Z.eqb n 0)
  | VStr s => negb (String.eqb s EmptyString)
  | VFun _ | VArr _ | VObj _ => true
  end.

(** [a || b]. *)
Definition js_or (a b : value) : value := if truthy a then a else b.

(** A JavaScript object has each key once.  [wellFormed] says so of every
    object inside a value. *)
Fixpoint distinct (keys : list string) : bool :=
  match keys with
  | [] => true
  | k :: r => negb (existsb (String.eqb k) r) && distinct r
  end.

Fixpoint wellFormed (v : value) : bool :=
  match v with
  | VArr l => forallb wellFormed l
  | VObj o =>
      distinct (map fst o) && forallb (fun kv => wellFormed (snd kv)) o
  | _ => true
  end.

(** Reading along a path of keys; [None] when a key on the way is
    missing. *)
Fixpoint readPath (path : list string) (v : value) : option value :=
  match path with
  | [] => Some v
  | k :: rest =>
      match v with
      | VObj o =>
          match lookup k o with
          | Some x => readPath rest x
          | None => None
          end
      | _ => None
      end
  end.

(** The fields of an object: the paths that lead to something other than
    a plain object. *)
Fixpoint fieldPaths (v : value) : list (list string) :=
  match v with
  | VObj o =>
      (fix each (o : props) : list (list string) :=
         match o with
         | [] => []
         | (k, x) :: rest =>
             match x with
             | VObj _ => map (cons k) (fieldPaths x)
             | _ => [[k]]
             end ++ each rest
         end) o
  | _ => []
  end.

(* ================================================================== *)
(** * lodash's [_.merge] *)
(* ================================================================== *)

(** [_.merge(object, source)] as lodash 4.17 documents and implements it:
    it "recursively merges own and inherited enumerable string keyed
    properties of source objects into the destination object.  Source
    properties that resolve to undefined are skipped if a destination value
    exists.  Array and plain object properties are merged recursively.
    Other objects and value types are overridden by assignment. [...] This
    method mutates object."

    The functions below return the new contents of the destination; the
    caller stores them back where the destination lives.  Where lodash
    would leave the universe of [value] (it stores named properties on an
    array when a plain object is merged into it, index keys on an object
    when an array or a string is merged into it at top level, and treats
    a plain object with a [length] as an array), the destination is left
    as it is; options of the documented shape never get there. *)
Module Lodash.

(** [assignMergeValue(object, key, value)]: an [undefined] value is only
    written when the key is missing. *)
Definition assignMergeValue (object : props) (key : string) (v : value)
  : props :=
  match v with
  | VUndefined => if hasKey key object then object else setKey key v object
  | _ => setKey key v object
  end.

(** The destination [baseMergeDeep] merges a source array or plain object
    into: the value already there when it is an array (for an array) or
    an object that is not a function (for a plain object), a fresh [[]]
    or [{}] otherwise.  (Releases before 4.17.11 merge a plain object
    into a function that is already there; nothing below puts a plain
    object where a function is.) *)
Definition mergeTarget (objValue srcValue : value) : value :=
  match srcValue with
  | VArr _ => match objValue with VArr _ => objValue | _ => VArr [] end
  | VObj _ =>
      match objValue with
      | VObj _ | VArr _ => objValue
      | _ => VObj []
      end
  | _ => objValue
  end.

(** The two loops of [baseMerge], over the keys of a plain-object source
    and over the indices of an array source; [mergeDeep objValue srcValue]
    stands for the recursive merge of a nested array or plain object. *)
Section loops.
Variable mergeDeep : value -> value -> value.

Fixpoint mergeProps (s : props) (d : props) {struct s} : props :=
  match s with
  | [] => d
  | (key, srcValue) :: rest =>
      let newValue :=
        match srcValue with
        | VArr _ | VObj _ => mergeDeep (get key (VObj d)) srcValue
        | _ => srcValue
        end in
      mergeProps rest (assignMergeValue d key newValue)
  end.

(** Index [i] of the source meets index [i] of the destination; past
    the end of the destination the element is appended ([i in object]
    is false there, so even [undefined] is written). *)
Fixpoint mergeElems (s : list value) (d : list value) {struct s}
  : list value :=
  match s with
  | [] => d
  | srcValue :: rest =>
      let objValue := match d with [] => VUndefined | x :: _ => x end in
      let newValue :=
        match srcValue with
        | VArr _ | VObj _ => mergeDeep objValue srcValue
        | VUndefined => objValue
        | _ => srcValue
        end in
      newValue :: mergeElems rest (tl d)
  end.
End loops.

(** [baseMerge(object, source)]: the contents of [object] afterwards.
    The keys of a plain-object source are visited in order, an array
    source is visited by index; a source that is neither has no keys to
    visit. *)
Fixpoint baseMerge (object source : value) {struct source} : value :=
  match source with
  | VObj s =>
      match object with
      | VObj d =>
          VObj (mergeProps
                  (fun objValue srcValue =>
                     baseMerge (mergeTarget objValue srcValue) srcValue)
                  s d)
      | _ => object
      end
  | VArr s =>
      match object with
      | VArr d =>
          VArr (mergeElems
                  (fun objValue srcValue =>
                     baseMerge (mergeTarget objValue srcValue) srcValue)
                  s d)
      | _ => object
      end
  | _ => object
  end.

(** [baseMergeDeep]: pick the destination, merge into it. *)
Definition baseMergeDeep (objValue srcValue : value) : value :=
  baseMerge (mergeTarget objValue srcValue) srcValue.

(** [_.merge(object, source)] with a single source. *)
Definition merge (object source : value) : value := baseMerge object source.

End Lodash.

(* ================================================================== *)
(** * Errors and results *)
(* ================================================================== *)

(** Modelled from the spec: [NoAdapterError], which the resource factory
    raises; its file is not among the sources.  It carries the entry that
    no registered adapter pair matched.  The other two are the source's
    own: [Error] is the plain [new Error(message)] of [registerAdapter],
    [TypeError] is the runtime's (a property read on [null], iterating
    what is not an array). *)
Inductive exn : Type :=
| Error (message : string)
| TypeError
| NoAdapterError (entry : value).

Inductive outcome (A : Type) : Type :=
| Returns (a : A)
| Throws (e : exn).
Arguments Returns {A} a.
Arguments Throws {A} e.

Definition bind {A B} (x : outcome A) (f : A -> outcome B) : outcome B :=
  match x with
  | Returns a => f a
  | Throws e => Throws e
  end.

Notation "'let*' x ':=' c 'in' k" := (bind c (fun x => k))
  (at level 10, x name, c at level 100, k at level 200, only parsing).

(* ================================================================== *)
(** * Adapters and resources *)
(* ================================================================== *)

(** Modelled from the spec: the class of resource instances
    ([./backend/adapters/base-resource]) is not among the sources.  A
    Resource "exposes at minimum an identifier accessor [id()]", which is
    all [findResource] looks at, and the factory attaches the [options]
    of a [{resource, options}] entry to it. *)
Record BaseResource : Type := {
  id : string;
  attached : value
}.

(** The Database class of an adapter.  [isAdapterFor] is a static method
    that a class may lack, which is what [registerAdapter] tests. *)
Record DatabaseClass : Type := {
  Database_isAdapterFor : option (value -> bool)
}.

(** Modelled from the spec: what a Resource class offers besides
    [isAdapterFor] is used by the resource factory only, which is not
    among the sources.  The Resource kind "exposes a constructor/factory
    taking a matched database entry and a back-reference to the Admin
    Instance"; wrapping a database entry yields "one or more" resources,
    wrapping a listed resource yields one.  The back-reference is
    represented by the instance's options object, the only part of the
    instance that is set while resources are built. *)
Record ResourceClass : Type := {
  Resource_isAdapterFor : option (value -> bool);
  wrapDatabase : value -> value -> list BaseResource;
  wrapResource : value -> value -> BaseResource
}.

(** An element of [AdminBro.registeredAdapters]: [{ Database, Resource }]. *)
Record Adapter : Type := {
  Database : DatabaseClass;
  Resource : ResourceClass
}.

(** The argument of [registerAdapter]; [None] is a missing (falsy)
    property. *)
Record AdapterOptions : Type := {
  opt_Database : option DatabaseClass;
  opt_Resource : option ResourceClass
}.

(* ================================================================== *)
(** * Module state *)
(* ================================================================== *)

(** Modelled from the spec: [./backend/defaults/default-dashboard] is not
    among the sources; the dashboard is an "opaque value, defaulted if not
    supplied", so only the identity of the exported class matters. *)
Definition DefaultDashboard : value := VFun "DefaultDashboard".

(** [const defaults = { ... }], as declared. *)
Definition defaults : value :=
  VObj [
    ("rootPath", VStr "/admin");
    ("logoutPath", VStr "/admin/logout");
    ("loginPath", VStr "/admin/login");
    ("databases", VArr []);
    ("resources", VArr []);
    ("branding", VObj [
       ("logo", VStr "https://softwarebrothers.co/assets/images/software-brothers-logo-compact.svg");
       ("companyName", VStr "Company Name");
       ("softwareBrothers", VBool true)]);
    ("dashboard", DefaultDashboard);
    ("assets", VObj [
       ("styles", VArr [VStr "/style.css"]);
       ("scripts", VArr [VStr "/scripts.js"])])
  ].

(** The mutable state of the module: the current contents of the object
    bound to [defaults], and of the array [AdminBro.registeredAdapters]. *)
Record world : Type := {
  defaultsObj : value;
  registeredAdapters : list Adapter
}.

(** The state right after the module is loaded. *)
Definition loaded : world :=
  {| defaultsObj := defaults; registeredAdapters := [] |}.

(** [_.merge] returns its first argument, so [this.options] is the object
    bound to [defaults] itself, not a copy: the field holds a reference,
    and what it shows is read from the world. *)
Inductive objref : Type := Ref_defaults.

Definition deref (w : world) (r : objref) : value :=
  match r with
  | Ref_defaults => defaultsObj w
  end.

(** An AdminBro instance. *)
Record AdminBro : Type := {
  resources : list BaseResource;
  options : objref;
  DashboardPage : value
}.

(* ================================================================== *)
(** * The resource factory *)
(* ================================================================== *)

(** Modelled from the spec: [./backend/utils/resources-factory] is not
    among the sources.  Section 4.2 of the spec: for each entry of
    [databases], in order, "scan the Adapter Registry in registration
    order and select the first pair whose [databaseKind.isAdapterFor(entry)]
    returns true", wrap the entry, and fail with [NoAdapterError] if no
    pair matches; for each entry of [resources], in order, find a matching
    pair and wrap a single resource, attaching the [options] of a
    [{resource, options}] entry; then concatenate, database-derived
    resources first, with no de-duplication. *)
Module ResourcesFactory.

(** Modelled from the spec: "[databaseKind.isAdapterFor(entry)] returns
    true"; a class without the method never does. *)
Definition adaptsDatabase (entry : value) (a : Adapter) : bool :=
  match Database_isAdapterFor (Database a) with
  | Some f => f entry
  | None => false
  end.

(** Modelled from the spec: the same test for a listed resource, asked
    of the Resource class ("each exposing [isAdapterFor]"). *)
Definition adaptsResource (entry : value) (a : Adapter) : bool :=
  match Resource_isAdapterFor (Resource a) with
  | Some f => f entry
  | None => false
  end.

(** Modelled from the spec: "scan the Adapter Registry in registration
    order and select the first pair" that matches; "fails with
    [NoAdapterError] if no pair matches". *)
Definition selectAdapter (matches : value -> Adapter -> bool)
           (adapters : list Adapter) (entry : value) : outcome Adapter :=
  match find (matches entry) adapters with
  | Some a => Returns a
  | None => Throws (NoAdapterError entry)
  end.

(** Modelled from the spec: a listed resource is "either a bare resource
    handle, or [{ resourceHandle, options }]"; the typedef in the source
    names the two properties [resource] and [options]. *)
Definition handleOf (entry : value) : value :=
  if has "resource" entry then get "resource" entry else entry.

(** Modelled from the spec: the [options] of a [{resource, options}]
    entry; a bare handle has none. *)
Definition settingsOf (entry : value) : value :=
  if has "resource" entry then get "options" entry else VUndefined.

Section building.
Variable admin : value.
Variable adapters : list Adapter.

(** Modelled from the spec: step 1, database entries in the given order,
    each wrapped by the first matching pair; the first entry without a
    pair aborts. *)
Fixpoint convertDatabases (databases : list value)
  : outcome (list BaseResource) :=
  match databases with
  | [] => Returns []
  | db :: rest =>
      let* a := selectAdapter adaptsDatabase adapters db in
      let* more := convertDatabases rest in
      Returns (wrapDatabase (Resource a) db admin ++ more)
  end.

(** Modelled from the spec: step 2 for one entry, "wrap similarly and
    then attach [options]". *)
Definition convertResource (entry : value) : outcome BaseResource :=
  let* a := selectAdapter adaptsResource adapters (handleOf entry) in
  let r := wrapResource (Resource a) (handleOf entry) admin in
  Returns {| id := id r; attached := settingsOf entry |}.

(** Modelled from the spec: step 2, listed entries in the given order. *)
Fixpoint convertResources (listed : list value)
  : outcome (list BaseResource) :=
  match listed with
  | [] => Returns []
  | entry :: rest =>
      let* r := convertResource entry in
      let* more := convertResources rest in
      Returns (r :: more)
  end.

(** Modelled from the spec: [buildResources({ databases, resources })],
    step 3: "all database-derived resources first (in database order),
    then explicitly listed resources (in listing order).  No
    de-duplication is performed".  Iterating a value that is not an array
    is a [TypeError] of the runtime. *)
Definition buildResources (databases resources : value)
  : outcome (list BaseResource) :=
  match databases, resources with
  | VArr dbs, VArr listed =>
      let* fromDatabases := convertDatabases dbs in
      let* fromOptions := convertResources listed in
      Returns (fromDatabases ++ fromOptions)
  | _, _ => Throws TypeError
  end.
End building.

End ResourcesFactory.

(* ================================================================== *)
(** * The [AdminBro] class *)
(* ================================================================== *)

(** [constructor(options = {})].  The merge writes into the object bound
    to [defaults]; the world keeps that write whether or not the rest of
    the constructor throws. *)
Definition AdminBro_new (options : value) (w : world)
  : world * outcome AdminBro :=
  let options := match options with VUndefined => VObj [] | _ => options end in
  (* this.options = _.merge(defaults, options) *)
  let w := {| defaultsObj := Lodash.merge (defaultsObj w) options;
              registeredAdapters := registeredAdapters w |} in
  let this_options := Ref_defaults in
  (* const { databases, resources } = this.options *)
  let databases := get "databases" (deref w this_options) in
  let resources := get "resources" (deref w this_options) in
  match
    ResourcesFactory.buildResources (deref w this_options)
      (registeredAdapters w) databases resources
  with
  | Throws e => (w, Throws e)
  | Returns built =>
      (* this.DashboardPage = options.dashboard || defaults.dashboard *)
      match options with
      | VNull => (w, Throws TypeError)
      | _ =>
          (w, Returns {| resources := built;
                         options := this_options;
                         DashboardPage :=
                           js_or (get "dashboard" options)
                                 (get "dashboard" (defaultsObj w)) |})
      end
  end.

Definition missingAdapterPart : string :=
  "Adapter has to have both Database and Resource".

Definition incapableAdapterPart : string :=
  "Adapter elements has to be subclassess of AdminBro.BaseResource nad AdminBro.BaseDatabase".

(** [static registerAdapter({ Database, Resource })]. *)
Definition registerAdapter (arg : AdapterOptions) (w : world)
  : world * outcome unit :=
  match opt_Database arg, opt_Resource arg with
  | Some D, Some R =>
      (* checking if both Database and Resource have at least isAdapterFor *)
      match Database_isAdapterFor D, Resource_isAdapterFor R with
      | Some _, Some _ =>
          ({| defaultsObj := defaultsObj w;
              registeredAdapters :=
                registeredAdapters w ++ [{| Database := D; Resource := R |}] |},
           Returns tt)
      | _, _ => (w, Throws (Error incapableAdapterPart))
      end
  | _, _ => (w, Throws (Error missingAdapterPart))
  end.

(** [findResource(resourceId)]: [Array.prototype.find] gives the first
    element that satisfies the test, or [undefined] ([None]). *)
Definition findResource (this : AdminBro) (resourceId : string)
  : option BaseResource :=
  find (fun m => String.eqb (id m) resourceId) (resources this).

(** [static async renderLogin({ action, errorMessage })].

    The [Renderer] class ([./backend/utils/renderer]) is a collaborator
    outside this file; it is a parameter here: the type of its instances,
    its constructor [new Renderer(view, data)] and its [render()] method,
    either of which may throw.  The [outcome] is what the promise
    returned by the [async] function settles with: fulfilled with a
    value, or rejected with what was thrown.  Destructuring [null] or
    [undefined] throws. *)
Section login.
Variable RendererInstance : Type.
Variable Renderer : string -> value -> outcome RendererInstance.
Variable render : RendererInstance -> outcome string.

Definition renderLogin (arg : value) : outcome string :=
  match arg with
  | VUndefined | VNull => Throws TypeError
  | _ =>
      let action := get "action" arg in
      let errorMessage := get "errorMessage" arg in
      let* renderer :=
        Renderer "pages/login"
                 (VObj [("action", action); ("errorMessage", errorMessage)]) in
      render renderer
  end.
End login.

(* ================================================================== *)
(** * Options of the documented shape *)
(* ================================================================== *)

(** The [AdminBroOptions] typedef: every property is optional.  Entries of
    [databases] and [resources] are handles of any kind; a dashboard is a
    [PageBuilder] class, named. *)
Record BrandingOptions : Type := {
  logo : option string;
  companyName : option string;
  softwareBrothers : option bool
}.

Record AssetsOptions : Type := {
  styles : option (list string);
  scripts : option (list string)
}.

Record AdminBroOptions : Type := {
  rootPath : option string;
  logoutPath : option string;
  loginPath : option string;
  databases : option (list value);
  listed : option (list value);      (* the [resources] property *)
  branding : option BrandingOptions;
  dashboard : option string;
  assets : option AssetsOptions
}.

(** The object literal a caller writes for such options: the properties
    that are given, in the order of the typedef. *)
Definition prop {A} (key : string) (f : A -> value) (x : option A) : props :=
  match x with
  | Some a => [(key, f a)]
  | None => []
  end.

Definition strings (l : list string) : value := VArr (map VStr l).

Definition propsOfBranding (b : BrandingOptions) : props :=
  prop "logo" VStr (logo b)
  ++ prop "companyName" VStr (companyName b)
  ++ prop "softwareBrothers" VBool (softwareBrothers b).

Definition propsOfAssets (a : AssetsOptions) : props :=
  prop "styles" strings (styles a)
  ++ prop "scripts" strings (scripts a).

Definition objectOfBranding (b : BrandingOptions) : value :=
  VObj (propsOfBranding b).

Definition objectOfAssets (a : AssetsOptions) : value :=
  VObj (propsOfAssets a).

Definition propsOf (o : AdminBroOptions) : props :=
  prop "rootPath" VStr (rootPath o)
  ++ prop "logoutPath" VStr (logoutPath o)
  ++ prop "loginPath" VStr (loginPath o)
  ++ prop "databases" VArr (databases o)
  ++ prop "resources" VArr (listed o)
  ++ prop "branding" objectOfBranding (branding o)
  ++ prop "dashboard" VFun (dashboard o)
  ++ prop "assets" objectOfAssets (assets o).

Definition objectOf (o : AdminBroOptions) : value := VObj (propsOf o).


(* ================================================================== *)
(** * Vocabulary of the statements *)
(* ================================================================== *)

(** The value a slot holds after a source value was merged into it. *)
Definition slot (objValue srcValue : value) : value :=
  match srcValue with
  | VArr _ | VObj _ => Lodash.baseMergeDeep objValue srcValue
  | VUndefined => objValue
  | _ => srcValue
  end.

(** Merged into a fresh destination, [v] comes out as it went in. *)
Definition copied (v : value) : Prop :=
  match v with
  | VArr _ | VObj _ => Lodash.baseMergeDeep VUndefined v = v
  | _ => True
  end.

(** The module state in which adapters have been registered and no
    instance has been constructed yet: [defaults] is as declared. *)
Definition withAdapters (adapters : list Adapter) : world :=
  {| defaultsObj := defaults; registeredAdapters := adapters |}.

(** What [this.options] shows once the constructor has run its first
    statement (whether or not it goes on to throw). *)
Definition effectiveOptions (options : value) (w : world) : value :=
  defaultsObj (fst (AdminBro_new options w)).

(** [u] written over [d] index by index. *)
Definition overlay {A} (u d : list A) : list A := u ++ skipn (List.length u) d.



(** The spec's name for what [registerAdapter] throws: one of its two
    [Error]s. *)
Definition ConfigurationError (e : exn) : Prop :=
  e = Error missingAdapterPart \/ e = Error incapableAdapterPart.

(** Both classes of the pair have [isAdapterFor]. *)
Definition capable (a : Adapter) : Prop :=
  Database_isAdapterFor (Database a) <> None
  /\ Resource_isAdapterFor (Resource a) <> None.

(** The argument that registers the pair [a]. *)
Definition register (a : Adapter) : AdapterOptions :=
  {| opt_Database := Some (Database a); opt_Resource := Some (Resource a) |}.

(** An omitted list is the default [[]]. *)
Definition given (x : option (list value)) : list value :=
  match x with
  | Some l => l
  | None => []
  end.

(** The pair a call of [registerAdapter] adds: the one it is given, when
    both classes are there and have [isAdapterFor]; none otherwise. *)
Definition accepted (arg : AdapterOptions) : list Adapter :=
  match opt_Database arg, opt_Resource arg with
  | Some D, Some R =>
      match Database_isAdapterFor D, Resource_isAdapterFor R with
      | Some _, Some _ => [{| Database := D; Resource := R |}]
      | _, _ => []
      end
  | _, _ => []
  end.

(** A series of calls of [registerAdapter], one per argument, whatever
    each of them returns or throws. *)
Fixpoint registerAll (args : list AdapterOptions) (w : world) : world :=
  match args with
  | [] => w
  | arg :: rest => registerAll rest (fst (registerAdapter arg w))
  end.

(** Merging [sv] a second time changes nothing. *)
Definition settled (sv : value) : Prop :=
  forall t, Lodash.baseMerge (Lodash.baseMerge t sv) sv = Lodash.baseMerge t sv.

(** A call into the module: [new AdminBro(arg)] or
    [AdminBro.registerAdapter(arg)]. *)
Inductive call : Type :=
| New (arg : value)
| Register (arg : AdapterOptions).

(** The module state after a series of calls, whatever each of them
    returns or throws. *)
Fixpoint run (calls : list call) (w : world) : world :=
  match calls with
  | [] => w
  | New arg :: rest => run rest (fst (AdminBro_new arg w))
  | Register arg :: rest => run rest (fst (registerAdapter arg w))
  end.

(** What every module state has: [defaults] is an object that has every
    top-level key it was declared with, and the registry holds capable
    pairs only. *)
Definition sound (w : world) : Prop :=
  (exists d, defaultsObj w = VObj d)
  /\ (forall k, has k defaults = true -> has k (defaultsObj w) = true)
  /\ Forall capable (registeredAdapters w).

(* ================================================================== *)
(** * Sample inputs *)
(* ================================================================== *)

(** [{}] *)
Definition noOptions : AdminBroOptions :=
  {| rootPath := None; logoutPath := None; loginPath := None;
     databases := None; listed := None; branding := None;
     dashboard := None; assets := None |}.

Definition acme : AdminBroOptions :=
  {| rootPath := None; logoutPath := None; loginPath := None;
     databases := None; listed := None;
     branding := Some {| logo := None; companyName := Some "Acme";
                         softwareBrothers := None |};
     dashboard := None; assets := None |}.

Definition noStyles : AdminBroOptions :=
  {| rootPath := None; logoutPath := None; loginPath := None;
     databases := None; listed := None; branding := None; dashboard := None;
     assets := Some {| styles := Some []; scripts := None |} |}.

Definition xyzAdmin : AdminBroOptions :=
  {| rootPath := Some "/xyz-admin"; logoutPath := None; loginPath := None;
     databases := None; listed := None; branding := None; dashboard := None;
     assets := None |}.

Definition customDashboard : AdminBroOptions :=
  {| rootPath := None; logoutPath := None; loginPath := None;
     databases := None; listed := None; branding := None;
     dashboard := Some "CustomDashboard"; assets := None |}.

Definition mongoDatabase : DatabaseClass :=
  {| Database_isAdapterFor :=
       Some (fun x => match get "type" x with
                      | VStr t => String.eqb t "mongo"
                      | _ => false
                      end) |}.

Definition anyDatabase : DatabaseClass :=
  {| Database_isAdapterFor := Some (fun _ => true) |}.

(** A Resource class that makes one resource per name found under the
    [collections] of a database, and reads the id of a listed resource
    from its [name]. *)
Definition namedResource (prefix : string) : ResourceClass :=
  {| Resource_isAdapterFor :=
       Some (fun x => match get "name" x with VStr _ => true | _ => false end);
     wrapDatabase := fun db _ =>
       match get "collections" db with
       | VArr names =>
           map (fun n => {| id := match n with
                                  | VStr s => prefix ++ s
                                  | _ => prefix
                                  end;
                            attached := VUndefined |}) names
       | _ => []
       end;
     wrapResource := fun x _ =>
       {| id := match get "name" x with VStr s => prefix ++ s | _ => prefix end;
          attached := VUndefined |} |}.

Definition mongoAdapter : Adapter :=
  {| Database := mongoDatabase; Resource := namedResource "mongo/" |}.

Definition catchAllAdapter : Adapter :=
  {| Database := anyDatabase; Resource := namedResource "any/" |}.

Definition mongoHandle : value :=
  VObj [("type", VStr "mongo"); ("collections", VArr [VStr "users"])].

Definition twoUsers : AdminBro :=
  {| resources := [ {| id := "posts"; attached := VUndefined |};
                    {| id := "users"; attached := VNum 1 |};
                    {| id := "tags"; attached := VUndefined |} ];
     options := Ref_defaults;
     DashboardPage := DefaultDashboard |}.

Definition blogHandle : value :=
  VObj [("type", VStr "mongo");
        ("collections", VArr [VStr "users"; VStr "posts"])].

Definition blogOptions : AdminBroOptions :=
  {| rootPath := None; logoutPath := None; loginPath := None;
     databases := Some [blogHandle];
     listed := Some [VObj [("name", VStr "users")]];
     branding := None; dashboard := None; assets := None |}.

Definition blogAdmin : AdminBro :=
  {| resources := [ {| id := "mongo/users"; attached := VUndefined |};
                    {| id := "mongo/posts"; attached := VUndefined |};
                    {| id := "mongo/users"; attached := VUndefined |} ];
     options := Ref_defaults;
     DashboardPage := DefaultDashboard |}.

Definition unknownHandle : value := VObj [("type", VStr "unknown")].

Definition unknownOptions : AdminBroOptions :=
  {| rootPath := None; logoutPath := None; loginPath := None;
     databases := Some [blogHandle; unknownHandle];
     listed := None;
     branding := None; dashboard := None; assets := None |}.

(** A class without [isAdapterFor]. *)
Definition plainResource : ResourceClass :=
  {| Resource_isAdapterFor := None;
     wrapDatabase := fun _ _ => [];
     wrapResource := fun _ _ => {| id := "plain"; attached := VUndefined |} |}.

(** Four calls: a capable pair, a pair with a missing Resource, a pair
    whose Resource lacks [isAdapterFor], another capable pair. *)
Definition startupCalls : list AdapterOptions :=
  [ register mongoAdapter;
    {| opt_Database := Some mongoDatabase; opt_Resource := None |};
    {| opt_Database := Some anyDatabase; opt_Resource := Some plainResource |};
    register catchAllAdapter ].

Definition xyzUnknown : AdminBroOptions :=
  {| rootPath := Some "/xyz-admin"; logoutPath := None; loginPath := None;
     databases := Some [unknownHandle]; listed := None;
     branding := None; dashboard := None; assets := None |}.

Definition twoStyles : AdminBroOptions :=
  {| rootPath := None; logoutPath := None; loginPath := None;
     databases := None; listed := None; branding := None; dashboard := None;
     assets := Some {| styles := Some ["/a.css"; "/b.css"];
                       scripts := None |} |}.

Definition oneStyle : AdminBroOptions :=
  {| rootPath := None; logoutPath := None; loginPath := None;
     databases := None; listed := None; branding := None; dashboard := None;
     assets := Some {| styles := Some ["/c.css"]; scripts := None |} |}.

(** Options that list one database and nothing else. *)
Definition blogDatabase : AdminBroOptions :=
  {| rootPath := None; logoutPath := None; loginPath := None;
     databases := Some [blogHandle]; listed := None;
     branding := None; dashboard := None; assets := None |}.

(** A database handle that the mongo adapter does not accept. *)
Definition kindHandle : value := VObj [("kind", VStr "x")].

Definition kindOptions : AdminBroOptions :=
  {| rootPath := None; logoutPath := None; loginPath := None;
     databases := Some [kindHandle]; listed := None;
     branding := None; dashboard := None; assets := None |}.

(* ================================================================== *)
(** * Properties of objects and of the merge *)
(* ================================================================== *)

Section object_facts.

Lemma hasKey_lookup k o : hasKey k o = false <-> lookup k o = None.
Proof.
  induction o as [|[k' v'] r IH]; simpl.
  - tauto.
  - destruct (String.eqb k k'); [split; discriminate | exact IH].
Qed.

Lemma lookup_setKey_same k v o : lookup k (setKey k v o) = Some v.
Proof.
  induction o as [|[k' v'] r IH]; simpl.
  - now rewrite String.eqb_refl.
  - destruct (String.eqb k k') eqn:E; simpl; rewrite E; auto.
Qed.

Lemma lookup_setKey_other k k' v o :
  String.eqb k k' = false -> lookup k (setKey k' v o) = lookup k o.
Proof.
  intros Hk. induction o as [|[k2 v2] r IH]; simpl.
  - now rewrite Hk.
  - destruct (String.eqb k' k2) eqn:E; simpl.
    + apply String.eqb_eq in E; subst k2. now rewrite Hk.
    + destruct (String.eqb k k2); auto.
Qed.

(** Writing a key that is not there appends it. *)
Lemma setKey_fresh k v o : hasKey k o = false -> setKey k v o = o ++ [(k, v)].
Proof.
  induction o as [|[k' v'] r IH]; simpl; intros H; [reflexivity|].
  destruct (String.eqb k k'); [discriminate|]. now rewrite IH.
Qed.

Lemma hasKey_app k a b : hasKey k (a ++ b) = hasKey k a || hasKey k b.
Proof.
  induction a as [|[k' v'] r IH]; simpl; [reflexivity|].
  destruct (String.eqb k k'); auto.
Qed.

Lemma lookup_absent k o :
  existsb (String.eqb k) (map fst o) = false -> lookup k o = None.
Proof.
  induction o as [|[k' v'] r IH]; simpl; [reflexivity|].
  destruct (String.eqb k k'); simpl; [discriminate | exact IH].
Qed.

(** What a key reads after [assignMergeValue]. *)
Lemma lookup_assignMergeValue_same k v o :
  lookup k (Lodash.assignMergeValue o k v)
  = Some (match v with VUndefined => get k (VObj o) | _ => v end).
Proof.
  unfold Lodash.assignMergeValue.
  destruct v; try apply lookup_setKey_same.
  simpl. destruct (hasKey k o) eqn:H.
  - destruct (lookup k o) eqn:L; [reflexivity|].
    apply hasKey_lookup in L. congruence.
  - apply hasKey_lookup in H. rewrite H. apply lookup_setKey_same.
Qed.

Lemma lookup_assignMergeValue_other k k' v o :
  String.eqb k k' = false ->
  lookup k (Lodash.assignMergeValue o k' v) = lookup k o.
Proof.
  intros Hk. unfold Lodash.assignMergeValue.
  destruct v; try (apply lookup_setKey_other; exact Hk).
  destruct (hasKey k' o); [reflexivity | now apply lookup_setKey_other].
Qed.

End object_facts.

Section merge_facts.
Import Lodash.

Lemma baseMerge_objects d s :
  baseMerge (VObj d) (VObj s) = VObj (mergeProps baseMergeDeep s d).
Proof. reflexivity. Qed.

Lemma baseMerge_arrays d s :
  baseMerge (VArr d) (VArr s) = VArr (mergeElems baseMergeDeep s d).
Proof. reflexivity. Qed.

Lemma baseMergeDeep_objects d s :
  baseMergeDeep (VObj d) (VObj s) = VObj (mergeProps baseMergeDeep s d).
Proof. reflexivity. Qed.

Lemma baseMergeDeep_arrays d s :
  baseMergeDeep (VArr d) (VArr s) = VArr (mergeElems baseMergeDeep s d).
Proof. reflexivity. Qed.

(** Merging an array or a plain object never leaves [undefined]. *)
Lemma baseMergeDeep_defined objValue srcValue :
  match srcValue with VArr _ | VObj _ => True | _ => False end ->
  baseMergeDeep objValue srcValue <> VUndefined.
Proof.
  unfold baseMergeDeep.
  destruct srcValue; try contradiction; intros _;
    destruct objValue; simpl; discriminate.
Qed.

(** The merge is key by key: a key of the result reads the merged slot
    when the source has the key, and what it read before otherwise. *)
Lemma lookup_mergeProps k s : forall d,
  distinct (map fst s) = true ->
  lookup k (mergeProps baseMergeDeep s d)
  = match lookup k s with
    | Some srcValue => Some (slot (get k (VObj d)) srcValue)
    | None => lookup k d
    end.
Proof.
  induction s as [|[k' sv] rest IH]; intros d Hd; [reflexivity|].
  simpl in Hd. apply andb_prop in Hd as [Hfresh Hrest].
  apply negb_true_iff in Hfresh.
  cbn [mergeProps lookup].
  rewrite (IH _ Hrest).
  destruct (String.eqb k k') eqn:E.
  - apply String.eqb_eq in E; subst k'.
    rewrite (lookup_absent _ _ Hfresh), lookup_assignMergeValue_same.
    destruct sv; try reflexivity; cbn [slot];
      (destruct (baseMergeDeep _ _) eqn:M; try reflexivity;
       apply baseMergeDeep_defined in M; [contradiction | exact I]).
  - unfold get. rewrite lookup_assignMergeValue_other by exact E.
    reflexivity.
Qed.

(** No key is ever removed. *)
Lemma hasKey_mergeProps k s : forall d,
  hasKey k d = true -> hasKey k (mergeProps baseMergeDeep s d) = true.
Proof.
  induction s as [|[k' sv] rest IH]; intros d H; [exact H|].
  cbn [mergeProps]. apply IH.
  destruct (hasKey k (assignMergeValue d k' _)) eqn:N; [reflexivity|].
  apply hasKey_lookup in N.
  destruct (String.eqb k k') eqn:E.
  - apply String.eqb_eq in E; subst k'.
    rewrite lookup_assignMergeValue_same in N. discriminate.
  - rewrite lookup_assignMergeValue_other in N by exact E.
    apply hasKey_lookup in N. congruence.
Qed.

(** Arrays of strings: the source overwrites the destination index by
    index, and the destination keeps what lies beyond the source. *)
Lemma mergeElems_strings u : forall d,
  mergeElems baseMergeDeep (map VStr u) (map VStr d)
  = map VStr (u ++ skipn (List.length u) d).
Proof.
  induction u as [|x u IH]; intros d; [reflexivity|].
  destruct d as [|y d]; cbn [map mergeElems tl List.length skipn app].
  - f_equal. specialize (IH []). rewrite skipn_nil in IH. exact IH.
  - f_equal. apply IH.
Qed.

(** ** Merging into a fresh destination copies the source *)

Lemma mergeElems_fresh s :
  Forall copied s -> mergeElems baseMergeDeep s [] = s.
Proof.
  induction 1 as [|v s Hv _ IH]; [reflexivity|].
  cbn [mergeElems tl]. rewrite IH. f_equal.
  destruct v; try reflexivity; exact Hv.
Qed.

Lemma mergeProps_fresh s : forall d,
  distinct (map fst s) = true ->
  (forall k, In k (map fst s) -> hasKey k d = false) ->
  Forall (fun kv => copied (snd kv)) s ->
  mergeProps baseMergeDeep s d = d ++ s.
Proof.
  induction s as [|[k sv] rest IH]; intros d Hd Hnew Hs.
  - now rewrite app_nil_r.
  - simpl in Hd. apply andb_prop in Hd as [Hk Hrest].
    apply negb_true_iff in Hk.
    inversion Hs as [|? ? Hsv Hs']; subst. simpl in Hsv.
    assert (Hkd : hasKey k d = false) by (apply Hnew; now left).
    assert (Hget : get k (VObj d) = VUndefined).
    { unfold get. apply hasKey_lookup in Hkd. now rewrite Hkd. }
    cbn [mergeProps]. rewrite Hget.
    assert (Hstep : assignMergeValue d k
                      match sv with
                      | VArr _ | VObj _ => baseMergeDeep VUndefined sv
                      | _ => sv
                      end = d ++ [(k, sv)]).
    { destruct sv; simpl in Hsv |- *; try rewrite Hsv;
        try rewrite Hkd; now apply setKey_fresh. }
    rewrite Hstep, IH; [now rewrite <- app_assoc | exact Hrest | | exact Hs'].
    intros k2 Hin. rewrite hasKey_app, (Hnew k2) by now right. simpl.
    destruct (String.eqb k2 k) eqn:E; [|reflexivity].
    apply String.eqb_eq in E; subst k2.
    assert (existsb (String.eqb k) (map fst rest) = true); [|congruence].
    apply existsb_exists. exists k. split; [exact Hin | apply String.eqb_refl].
Qed.

(** A well-formed array or object merged into a fresh [[]] or [{}] comes
    out as it went in. *)
Lemma fresh_copy v : wellFormed v = true -> copied v.
Proof.
  induction v as [| | | | | |l IH|l IH] using value_nested_ind;
    intros Hwf; try exact I.
  - unfold copied, baseMergeDeep. cbn [mergeTarget]. rewrite baseMerge_arrays.
    f_equal. apply mergeElems_fresh.
    simpl in Hwf. rewrite forallb_forall in Hwf.
    rewrite Forall_forall in IH |- *. auto.
  - unfold copied, baseMergeDeep. cbn [mergeTarget]. rewrite baseMerge_objects.
    simpl in Hwf. apply andb_prop in Hwf as [Hkeys Hvals].
    rewrite mergeProps_fresh; [reflexivity | exact Hkeys | reflexivity |].
    rewrite forallb_forall in Hvals. rewrite Forall_forall in IH |- *. auto.
Qed.

Lemma merge_into_empty_array l :
  forallb wellFormed l = true ->
  baseMergeDeep (VArr []) (VArr l) = VArr l.
Proof. intros H. exact (fresh_copy (VArr l) H). Qed.

End merge_facts.

(* ================================================================== *)
(** * Options of the documented shape, merged over [defaults] *)
(* ================================================================== *)

Section typed_options.
Import Lodash.

Lemma distinct_propsOfBranding b : distinct (map fst (propsOfBranding b)) = true.
Proof. destruct b as [[?|] [?|] [?|]]; reflexivity. Qed.

Lemma distinct_propsOfAssets a : distinct (map fst (propsOfAssets a)) = true.
Proof. destruct a as [[?|] [?|]]; reflexivity. Qed.

Lemma distinct_propsOf o : distinct (map fst (propsOf o)) = true.
Proof.
  destruct o as [[?|] [?|] [?|] [?|] [?|] [?|] [?|] [?|]]; reflexivity.
Qed.

(** Looking a key up in a literal built with [prop]. *)
Lemma lookup_prop A k k' (f : A -> value) x rest :
  lookup k (prop k' f x ++ rest)
  = if String.eqb k k'
    then match x with Some a => Some (f a) | None => lookup k rest end
    else lookup k rest.
Proof. destruct x; simpl; destruct (String.eqb k k'); reflexivity. Qed.

Lemma lookup_prop_last A k k' (f : A -> value) x :
  lookup k (prop k' f x)
  = if String.eqb k k'
    then match x with Some a => Some (f a) | None => None end
    else None.
Proof. destruct x; simpl; destruct (String.eqb k k'); reflexivity. Qed.

(** What the merge leaves under a top-level key, and under a key of
    [branding] or [assets]. *)
Lemma lookup_merged k d o :
  lookup k (mergeProps baseMergeDeep (propsOf o) d)
  = match lookup k (propsOf o) with
    | Some srcValue => Some (slot (get k (VObj d)) srcValue)
    | None => lookup k d
    end.
Proof. apply lookup_mergeProps, distinct_propsOf. Qed.

Lemma lookup_merged_branding k d b :
  lookup k (mergeProps baseMergeDeep (propsOfBranding b) d)
  = match lookup k (propsOfBranding b) with
    | Some srcValue => Some (slot (get k (VObj d)) srcValue)
    | None => lookup k d
    end.
Proof. apply lookup_mergeProps, distinct_propsOfBranding. Qed.

Lemma lookup_merged_assets k d a :
  lookup k (mergeProps baseMergeDeep (propsOfAssets a) d)
  = match lookup k (propsOfAssets a) with
    | Some srcValue => Some (slot (get k (VObj d)) srcValue)
    | None => lookup k d
    end.
Proof. apply lookup_mergeProps, distinct_propsOfAssets. Qed.

(** The literals, seen through [lookup]. *)
Lemma lookup_propsOf k o :
  lookup k (propsOf o)
  = lookup k (prop "rootPath" VStr (rootPath o)
              ++ prop "logoutPath" VStr (logoutPath o)
              ++ prop "loginPath" VStr (loginPath o)
              ++ prop "databases" VArr (databases o)
              ++ prop "resources" VArr (listed o)
              ++ prop "branding" objectOfBranding (branding o)
              ++ prop "dashboard" VFun (dashboard o)
              ++ prop "assets" objectOfAssets (assets o)).
Proof. reflexivity. Qed.

Lemma lookup_propsOfBranding k b :
  lookup k (propsOfBranding b)
  = lookup k (prop "logo" VStr (logo b)
              ++ prop "companyName" VStr (companyName b)
              ++ prop "softwareBrothers" VBool (softwareBrothers b)).
Proof. reflexivity. Qed.

Lemma lookup_propsOfAssets k a :
  lookup k (propsOfAssets a)
  = lookup k (prop "styles" strings (styles a)
              ++ prop "scripts" strings (scripts a)).
Proof. reflexivity. Qed.

End typed_options.

(** Unfold a lookup in merged options down to the option fields it
    depends on, and split on those. *)
Ltac split_option_field :=
  match goal with
  | |- context [match ?f ?o with Some _ => _ | None => _ end] =>
      lazymatch f with
      | rootPath => idtac | logoutPath => idtac | loginPath => idtac
      | databases => idtac | listed => idtac | branding => idtac
      | dashboard => idtac | assets => idtac
      | logo => idtac | companyName => idtac | softwareBrothers => idtac
      | styles => idtac | scripts => idtac
      end;
      let E := fresh "E" in destruct (f o) eqn:E
  end.

Ltac merged_step :=
  first
    [ progress cbn [String.eqb Ascii.eqb Bool.eqb lookup get readPath slot]
    | rewrite baseMerge_objects
    | rewrite baseMergeDeep_objects
    | rewrite baseMergeDeep_arrays
    | rewrite lookup_merged
    | rewrite lookup_merged_branding
    | rewrite lookup_merged_assets
    | rewrite lookup_prop
    | rewrite lookup_prop_last
    | progress unfold Lodash.merge, objectOf, objectOfBranding,
        objectOfAssets, defaults, DefaultDashboard, strings
    | rewrite lookup_propsOf
    | rewrite lookup_propsOfBranding
    | rewrite lookup_propsOfAssets
    | match goal with
      | H : ?f ?o = _ |- context [match ?f ?o with Some _ => _ | None => _ end] =>
          rewrite H
      end
    | split_option_field ].

Ltac by_fields := repeat merged_step.

(* ================================================================== *)
(** * The options an instance ends up with *)
(* ================================================================== *)

Lemma AdminBro_new_world options w :
  fst (AdminBro_new options w)
  = {| defaultsObj :=
         Lodash.merge (defaultsObj w)
           match options with VUndefined => VObj [] | _ => options end;
       registeredAdapters := registeredAdapters w |}.
Proof.
  unfold AdminBro_new.
  destruct (ResourcesFactory.buildResources _ _ _ _); [|reflexivity].
  destruct options; reflexivity.
Qed.

Lemma effectiveOptions_merge o w :
  effectiveOptions (objectOf o) w = Lodash.merge (defaultsObj w) (objectOf o).
Proof. unfold effectiveOptions. now rewrite AdminBro_new_world. Qed.

(** The constructed instance shows the module's [defaults] object as its
    options. *)
Lemma options_are_defaults arg w w' this :
  AdminBro_new arg w = (w', Returns this) ->
  deref w' (options this) = defaultsObj w'
  /\ defaultsObj w' = effectiveOptions arg w.
Proof.
  intros H. unfold effectiveOptions. rewrite H. simpl.
  unfold AdminBro_new in H.
  destruct (ResourcesFactory.buildResources _ _ _ _); [|discriminate].
  destruct arg; inversion H; subst; auto.
Qed.

(** No construction removes a top-level option. *)
Lemma construction_keeps_keys k arg w :
  has k (defaultsObj w) = true -> has k (effectiveOptions arg w) = true.
Proof.
  unfold effectiveOptions. rewrite AdminBro_new_world. cbn [defaultsObj].
  destruct (defaultsObj w) as [| | | | | | |d]; try discriminate.
  intros H. unfold Lodash.merge.
  destruct arg; try exact H;
    try (rewrite baseMerge_objects; now apply hasKey_mergeProps).
Qed.

(** The eleven fields of [defaults]. *)
Lemma fields_of_defaults :
  fieldPaths defaults
  = [ ["rootPath"]; ["logoutPath"]; ["loginPath"]; ["databases"];
      ["resources"];
      ["branding"; "logo"]; ["branding"; "companyName"];
      ["branding"; "softwareBrothers"];
      ["dashboard"];
      ["assets"; "styles"]; ["assets"; "scripts"] ].
Proof. reflexivity. Qed.

(** On a first construction (over [defaults] as declared) the merged
    options are fully populated: each of the eleven fields of [defaults]
    is present, and holds the declared value whenever the options do not
    supply it.  In particular [{branding: {companyName: 'Acme'}}] gives a
    branding with company name ['Acme'] and the declared logo and
    [softwareBrothers] flag. *)
Theorem merged_options_fully_populated :
  (forall (adapters : list Adapter) (o : AdminBroOptions) (path : list string),
      In path (fieldPaths defaults) ->
      let merged := effectiveOptions (objectOf o) (withAdapters adapters) in
      (exists v, readPath path merged = Some v)
      /\ (readPath path (objectOf o) = None ->
          readPath path merged = readPath path defaults))
  /\ get "branding" (effectiveOptions (objectOf acme) loaded)
     = VObj [("logo", VStr "https://softwarebrothers.co/assets/images/software-brothers-logo-compact.svg");
             ("companyName", VStr "Acme");
             ("softwareBrothers", VBool true)].
Proof.
  split; [|reflexivity].
  intros adapters o path Hin merged. subst merged.
  rewrite effectiveOptions_merge. cbn [withAdapters defaultsObj].
  rewrite fields_of_defaults in Hin. simpl in Hin.
  repeat (destruct Hin as [<-|Hin]); try contradiction;
    (split; by_fields; try discriminate; eauto).
Qed.

Lemma merged_options_fully_populated_witness :
  readPath ["branding"; "logo"] (effectiveOptions (objectOf acme) loaded)
  = readPath ["branding"; "logo"] defaults.
Proof.
  apply (proj1 merged_options_fully_populated [] acme ["branding"; "logo"]).
  - simpl. auto 10.
  - reflexivity.
Defined.

(** C2, the claim as stated, at [{assets: {styles: []}}]: the merged
    [assets.styles] is not the supplied (empty) array but still the
    default one. *)
Lemma shorter_array_not_replaced :
  readPath ["assets"; "styles"] (effectiveOptions (objectOf noStyles) loaded)
  = Some (strings ["/style.css"])
  /\ readPath ["assets"; "styles"] (effectiveOptions (objectOf noStyles) loaded)
     <> Some (strings []).
Proof. split; [reflexivity | discriminate]. Qed.

(** C2, amended.  An array supplied in the options is written over the
    array in [defaults] index by index: the result has the supplied
    elements followed by whatever the default array holds beyond the
    supplied length.  For [assets.styles] and [assets.scripts] (one
    default element each) the result is the supplied array exactly when
    it is not empty; for [databases] and [resources] (default [[]]) it is
    always the supplied array. *)
Theorem supplied_array_overlays_default (adapters : list Adapter)
        (o : AdminBroOptions) :
  let merged := effectiveOptions (objectOf o) (withAdapters adapters) in
  (forall a u, assets o = Some a -> styles a = Some u ->
     readPath ["assets"; "styles"] merged
     = Some (strings (overlay u ["/style.css"])))
  /\ (forall a u, assets o = Some a -> scripts a = Some u ->
        readPath ["assets"; "scripts"] merged
        = Some (strings (overlay u ["/scripts.js"])))
  /\ (forall u, databases o = Some u -> forallb wellFormed u = true ->
        readPath ["databases"] merged = Some (VArr (overlay u [])))
  /\ (forall u, listed o = Some u -> forallb wellFormed u = true ->
        readPath ["resources"] merged = Some (VArr (overlay u [])))
  /\ (forall u : list string, u <> [] -> overlay u ["/style.css"] = u).
Proof.
  intros merged. subst merged. rewrite effectiveOptions_merge.
  cbn [withAdapters defaultsObj].
  repeat split.
  - intros a u Ha Hu. by_fields.
    exact (f_equal (fun l => Some (VArr l))
             (mergeElems_strings u ["/style.css"])).
  - intros a u Ha Hu. by_fields.
    exact (f_equal (fun l => Some (VArr l))
             (mergeElems_strings u ["/scripts.js"])).
  - intros u Hu Hwf. by_fields.
    unfold overlay. rewrite skipn_nil, app_nil_r.
    rewrite <- baseMergeDeep_arrays. now rewrite merge_into_empty_array.
  - intros u Hu Hwf. by_fields.
    unfold overlay. rewrite skipn_nil, app_nil_r.
    rewrite <- baseMergeDeep_arrays. now rewrite merge_into_empty_array.
  - intros [|x u] Hu; [contradiction|]. unfold overlay. simpl.
    now rewrite skipn_nil, app_nil_r.
Qed.

Lemma supplied_array_overlays_default_witness :
  readPath ["assets"; "styles"]
           (effectiveOptions (objectOf noStyles) (withAdapters []))
  = Some (strings (overlay [] ["/style.css"])).
Proof.
  apply (proj1 (supplied_array_overlays_default [] noStyles)
               {| styles := Some []; scripts := None |} []);
    reflexivity.
Defined.

(* ================================================================== *)
(** * The resource factory, characterised *)
(* ================================================================== *)

Section factory_facts.
Import ResourcesFactory.
Variable admin : value.
Variable adapters : list Adapter.





(** A database entry that no adapter accepts makes the conversion throw
    [NoAdapterError], for the first such entry. *)
Lemma convertDatabases_unmatched dbs :
  (exists db, In db dbs /\ find (adaptsDatabase db) adapters = None) ->
  exists entry,
    convertDatabases admin adapters dbs = Throws (NoAdapterError entry)
    /\ In entry dbs
    /\ find (adaptsDatabase entry) adapters = None.
Proof.
  induction dbs as [|db rest IH]; intros (bad & Hin & Hbad);
    [contradiction|].
  simpl. unfold selectAdapter.
  destruct (find (adaptsDatabase db) adapters) as [a|] eqn:F.
  - destruct Hin as [->|Hin]; [congruence|].
    destruct IH as (entry & -> & Hentry & Hnone); [eauto|].
    exists entry. simpl. auto.
  - exists db. simpl. auto.
Qed.



End factory_facts.

(* ================================================================== *)
(** * The adapter registry *)
(* ================================================================== *)

(** Whatever is registered through [registerAdapter] is capable, so the
    factory never meets a class without [isAdapterFor]. *)
Lemma registered_adapters_capable arg w :
  Forall capable (registeredAdapters w) ->
  Forall capable (registeredAdapters (fst (registerAdapter arg w))).
Proof.
  intros Hw. unfold registerAdapter.
  destruct (opt_Database arg) as [D|]; [|exact Hw].
  destruct (opt_Resource arg) as [R|]; [|exact Hw].
  destruct (Database_isAdapterFor D) eqn:HD; [|exact Hw].
  destruct (Resource_isAdapterFor R) eqn:HR; [|exact Hw].
  cbn [fst registeredAdapters]. apply Forall_app. split; [exact Hw|].
  constructor; [|constructor].
  unfold capable. cbn [Database Resource]. rewrite HD, HR.
  split; discriminate.
Qed.

(** C3. A call of [registerAdapter] whose Database or Resource is missing,
    or lacks [isAdapterFor], throws (a ConfigurationError in the spec's
    terms) and leaves the module state, so the registered-adapters list,
    exactly as it was; a call with both present and capable returns and
    appends exactly the pair [{Database, Resource}] at the end of the
    list. *)
Theorem registerAdapter_validates (arg : AdapterOptions) (w : world) :
  (opt_Database arg = None
   \/ opt_Resource arg = None
   \/ (exists D, opt_Database arg = Some D /\ Database_isAdapterFor D = None)
   \/ (exists R, opt_Resource arg = Some R /\ Resource_isAdapterFor R = None)
   -> exists e, registerAdapter arg w = (w, Throws e) /\ ConfigurationError e)
  /\ (forall D R f g,
        opt_Database arg = Some D -> opt_Resource arg = Some R ->
        Database_isAdapterFor D = Some f -> Resource_isAdapterFor R = Some g ->
        registerAdapter arg w
        = ({| defaultsObj := defaultsObj w;
              registeredAdapters :=
                registeredAdapters w ++ [{| Database := D; Resource := R |}] |},
           Returns tt)).
Proof.
  unfold registerAdapter, ConfigurationError. split.
  - intros [H | [H | [(D & H & HD) | (R & H & HR)]]]; rewrite H.
    + eauto.
    + destruct (opt_Database arg); eauto.
    + destruct (opt_Resource arg); [rewrite HD|]; eauto.
    + destruct (opt_Database arg) as [D|]; [|eauto].
      rewrite HR. destruct (Database_isAdapterFor D); eauto.
  - intros D R f g -> -> -> ->. reflexivity.
Qed.

Lemma registerAdapter_validates_witness :
  exists e,
    registerAdapter {| opt_Database := Some mongoDatabase; opt_Resource := None |}
                    loaded
    = (loaded, Throws e)
    /\ ConfigurationError e.
Proof.
  apply (proj1 (registerAdapter_validates
                  {| opt_Database := Some mongoDatabase; opt_Resource := None |}
                  loaded)).
  right; left; reflexivity.
Defined.

(** C4. When pairs [A] and then [B] are registered, and the Database
    classes of both accept a database handle that no pair registered
    earlier accepts, the resource factory selects [A] for it, and it is
    [A]'s Resource class that wraps the handle. *)
Theorem first_registered_adapter_wins
        (A B : Adapter) (w0 w1 w2 : world) (admin db : value) :
  registerAdapter (register A) w0 = (w1, Returns tt) ->
  registerAdapter (register B) w1 = (w2, Returns tt) ->
  Forall (fun a => ResourcesFactory.adaptsDatabase db a = false)
         (registeredAdapters w0) ->
  ResourcesFactory.adaptsDatabase db A = true ->
  ResourcesFactory.adaptsDatabase db B = true ->
  ResourcesFactory.selectAdapter ResourcesFactory.adaptsDatabase
    (registeredAdapters w2) db = Returns A
  /\ ResourcesFactory.convertDatabases admin (registeredAdapters w2) [db]
     = Returns (wrapDatabase (Resource A) db admin).
Proof.
  intros HA HB Hearlier HmA HmB.
  assert (Hreg : registeredAdapters w2 = registeredAdapters w0 ++ [A; B]).
  { unfold registerAdapter, register in HA, HB. simpl in HA, HB.
    destruct (Database_isAdapterFor (Database A)); [|discriminate].
    destruct (Resource_isAdapterFor (Resource A)); [|discriminate].
    destruct (Database_isAdapterFor (Database B)); [|discriminate].
    destruct (Resource_isAdapterFor (Resource B)); [|discriminate].
    inversion HA; subst w1. inversion HB; subst w2. simpl.
    destruct A, B. now rewrite <- app_assoc. }
  assert (Hfind : find (ResourcesFactory.adaptsDatabase db)
                       (registeredAdapters w2) = Some A).
  { rewrite Hreg. clear Hreg HA HB.
    induction Hearlier as [|a l Ha _ IH]; simpl.
    - now rewrite HmA.
    - now rewrite Ha. }
  split.
  - unfold ResourcesFactory.selectAdapter. now rewrite Hfind.
  - simpl. unfold ResourcesFactory.selectAdapter. rewrite Hfind. simpl.
    now rewrite app_nil_r.
Qed.

Lemma first_registered_adapter_wins_witness :
  ResourcesFactory.selectAdapter ResourcesFactory.adaptsDatabase
    [mongoAdapter; catchAllAdapter] mongoHandle = Returns mongoAdapter
  /\ ResourcesFactory.convertDatabases defaults
       [mongoAdapter; catchAllAdapter] [mongoHandle]
     = Returns [{| id := "mongo/users"; attached := VUndefined |}].
Proof.
  apply (@first_registered_adapter_wins
           mongoAdapter catchAllAdapter
           loaded
           (withAdapters [mongoAdapter])
           (withAdapters [mongoAdapter; catchAllAdapter])
           defaults mongoHandle).
  - reflexivity.
  - reflexivity.
  - constructor.
  - reflexivity.
  - reflexivity.
Defined.

(* ================================================================== *)
(** * Looking a resource up *)
(* ================================================================== *)

(** C6. [findResource] is total (it has no way to throw): it returns the
    first resource, in list order, whose [id()] equals the identifier
    when there is one, and the absent value when no resource has that
    id.  In particular it returns the resource with that id when there is
    exactly one. *)
Theorem findResource_first_match (this : AdminBro) (resourceId : string) :
  match findResource this resourceId with
  | Some r =>
      exists before after,
        resources this = before ++ r :: after
        /\ id r = resourceId
        /\ Forall (fun m => id m <> resourceId) before
  | None => Forall (fun m => id m <> resourceId) (resources this)
  end
  /\ (forall r,
        In r (resources this) -> id r = resourceId ->
        (forall r', In r' (resources this) -> id r' = resourceId -> r' = r) ->
        findResource this resourceId = Some r).
Proof.
  unfold findResource.
  assert (Hfirst :
    match find (fun m => String.eqb (id m) resourceId) (resources this) with
    | Some r =>
        exists before after,
          resources this = before ++ r :: after
          /\ id r = resourceId
          /\ Forall (fun m => id m <> resourceId) before
    | None => Forall (fun m => id m <> resourceId) (resources this)
    end).
  { induction (resources this) as [|m l IH]; simpl; [constructor|].
    destruct (String.eqb (id m) resourceId) eqn:E.
    - apply String.eqb_eq in E. exists [], l. auto.
    - apply String.eqb_neq in E.
      destruct (find _ l) as [r|].
      + destruct IH as (before & after & -> & Hid & Hbefore).
        exists (m :: before), after. auto.
      + auto. }
  split; [exact Hfirst|].
  intros r Hin Hid Huniq.
  destruct (find _ (resources this)) as [r'|].
  - destruct Hfirst as (before & after & Heq & Hid' & _).
    f_equal. apply Huniq; [|exact Hid'].
    rewrite Heq. apply in_or_app. right. now left.
  - rewrite Forall_forall in Hfirst. now destruct (Hfirst r Hin).
Qed.

Lemma findResource_first_match_witness :
  findResource twoUsers "users" = Some {| id := "users"; attached := VNum 1 |}.
Proof.
  apply (proj2 (findResource_first_match twoUsers "users")).
  - simpl. auto.
  - reflexivity.
  - simpl. intros r' [<-|[<-|[<-|[]]]]; (reflexivity || discriminate).
Defined.

(* ================================================================== *)
(** * The login page *)
(* ================================================================== *)

(** C9. [renderLogin] constructs the Renderer with the template name
    ['pages/login'] and an object holding exactly [action] and
    [errorMessage] (whatever else the argument carries is dropped), and
    settles with what [render()] gives, unchanged.  It takes neither an
    instance nor the module state. *)
Theorem renderLogin_passthrough
        (RendererInstance : Type)
        (Renderer : string -> value -> outcome RendererInstance)
        (render : RendererInstance -> outcome string)
        (action errorMessage : value) (arg : props) :
  renderLogin Renderer render
    (VObj [("action", action); ("errorMessage", errorMessage)])
  = bind (Renderer "pages/login"
            (VObj [("action", action); ("errorMessage", errorMessage)]))
         render
  /\ renderLogin Renderer render (VObj arg)
     = bind (Renderer "pages/login"
               (VObj [("action", get "action" (VObj arg));
                      ("errorMessage", get "errorMessage" (VObj arg))]))
            render.
Proof. split; reflexivity. Qed.

(* ================================================================== *)
(** * Construction *)
(* ================================================================== *)

Section construction_facts.
Import ResourcesFactory.

(** Before any instance was constructed, the lists the factory receives
    are the lists the options supply. *)
Lemma effective_databases adapters o :
  forallb wellFormed (given (databases o)) = true ->
  get "databases" (effectiveOptions (objectOf o) (withAdapters adapters))
  = VArr (given (databases o)).
Proof.
  intros Hwf. rewrite effectiveOptions_merge. cbn [withAdapters defaultsObj].
  by_fields; [|reflexivity].
  simpl in Hwf. rewrite <- baseMergeDeep_arrays.
  now rewrite merge_into_empty_array.
Qed.


Lemma effective_resources_array adapters o :
  exists ls,
    get "resources" (effectiveOptions (objectOf o) (withAdapters adapters))
    = VArr ls.
Proof.
  rewrite effectiveOptions_merge. cbn [withAdapters defaultsObj].
  by_fields; eauto.
Qed.

(** The constructor's result, in terms of the factory's. *)
Lemma AdminBro_new_outcome arg w :
  let eff := effectiveOptions arg w in
  snd (AdminBro_new arg w)
  = match buildResources eff (registeredAdapters w)
            (get "databases" eff) (get "resources" eff) with
    | Throws e => Throws e
    | Returns built =>
        match arg with
        | VNull => Throws TypeError
        | _ =>
            Returns {| resources := built;
                       options := Ref_defaults;
                       DashboardPage :=
                         js_or (get "dashboard"
                                  match arg with
                                  | VUndefined => VObj []
                                  | _ => arg
                                  end)
                               (get "dashboard" eff) |}
        end
    end.
Proof.
  unfold effectiveOptions. rewrite AdminBro_new_world.
  unfold AdminBro_new. cbn [deref defaultsObj registeredAdapters].
  destruct (buildResources _ _ _ _); [|reflexivity].
  destruct arg; reflexivity.
Qed.

End construction_facts.


(** The database yields [users] and [posts]; [users] is listed as well,
    and appears twice. *)
Example blog_resources :
  option_map (map id)
    match snd (AdminBro_new (objectOf blogOptions) (withAdapters [mongoAdapter]))
    with Returns this => Some (resources this) | Throws _ => None end
  = Some ["mongo/users"; "mongo/posts"; "mongo/users"].
Proof. reflexivity. Qed.


(** C7, the claim as stated, at [new AdminBro(null)] in a freshly
    loaded module: neither the merge nor the resource factory raises
    anything (the factory returns the empty list), and yet construction
    fails, with a [TypeError] that is the constructor's own: the read of
    [options.dashboard]. *)
Lemma null_options_fail_in_constructor :
  let eff := effectiveOptions VNull loaded in
  ResourcesFactory.buildResources eff (registeredAdapters loaded)
    (get "databases" eff) (get "resources" eff) = Returns []
  /\ snd (AdminBro_new VNull loaded) = Throws TypeError.
Proof. split; reflexivity. Qed.

(** After a construction that listed a mongo database, options whose only
    database is one that no adapter accepts construct all the same: the
    entry is merged into the database the earlier options left in
    [defaults], and what the factory receives is accepted. *)
Example unmatched_entry_hidden_by_earlier_options :
  let w1 := fst (AdminBro_new (objectOf blogDatabase)
                              (withAdapters [mongoAdapter])) in
  find (ResourcesFactory.adaptsDatabase kindHandle) [mongoAdapter] = None
  /\ option_map (map id)
       match snd (AdminBro_new (objectOf kindOptions) w1) with
       | Returns this => Some (resources this)
       | Throws _ => None
       end
     = Some ["mongo/users"; "mongo/posts"].
Proof. split; reflexivity. Qed.

(** C7, amended.  The constructor catches and converts nothing: what the
    resource factory throws is what the constructor throws, unchanged.
    The one failure the constructor adds itself is the [TypeError] of
    reading [options.dashboard] when the argument is [null], after the
    factory has returned; for an options object it throws only what the
    factory throws.  When the [databases] array handed to the factory has
    an entry that no registered adapter pair accepts, construction fails
    with the factory's [NoAdapterError] for such an entry; on a first
    construction that array is the one the options supply. *)
Theorem constructor_propagates_factory_errors :
  (forall arg w e,
      let eff := effectiveOptions arg w in
      ResourcesFactory.buildResources eff (registeredAdapters w)
        (get "databases" eff) (get "resources" eff) = Throws e ->
      snd (AdminBro_new arg w) = Throws e)
  /\ (forall arg w e,
        snd (AdminBro_new arg w) = Throws e ->
        let eff := effectiveOptions arg w in
        ResourcesFactory.buildResources eff (registeredAdapters w)
          (get "databases" eff) (get "resources" eff) = Throws e
        \/ (arg = VNull /\ e = TypeError
            /\ exists built,
                 ResourcesFactory.buildResources eff (registeredAdapters w)
                   (get "databases" eff) (get "resources" eff)
                 = Returns built))
  /\ (forall o w e,
        snd (AdminBro_new (objectOf o) w) = Throws e ->
        let eff := effectiveOptions (objectOf o) w in
        ResourcesFactory.buildResources eff (registeredAdapters w)
          (get "databases" eff) (get "resources" eff) = Throws e)
  /\ (forall arg w dbs ls,
        get "databases" (effectiveOptions arg w) = VArr dbs ->
        get "resources" (effectiveOptions arg w) = VArr ls ->
        (exists db,
            In db dbs
            /\ find (ResourcesFactory.adaptsDatabase db) (registeredAdapters w)
               = None) ->
        exists entry,
          snd (AdminBro_new arg w) = Throws (NoAdapterError entry)
          /\ In entry dbs
          /\ find (ResourcesFactory.adaptsDatabase entry) (registeredAdapters w)
             = None)
  /\ (forall adapters o dbs,
        databases o = Some dbs ->
        forallb wellFormed dbs = true ->
        (exists db,
            In db dbs
            /\ find (ResourcesFactory.adaptsDatabase db) adapters = None) ->
        exists entry,
          snd (AdminBro_new (objectOf o) (withAdapters adapters))
          = Throws (NoAdapterError entry)
          /\ In entry dbs
          /\ find (ResourcesFactory.adaptsDatabase entry) adapters = None).
Proof.
  assert (Hunmatched : forall arg w dbs ls,
    get "databases" (effectiveOptions arg w) = VArr dbs ->
    get "resources" (effectiveOptions arg w) = VArr ls ->
    (exists db,
        In db dbs
        /\ find (ResourcesFactory.adaptsDatabase db) (registeredAdapters w)
           = None) ->
    exists entry,
      snd (AdminBro_new arg w) = Throws (NoAdapterError entry)
      /\ In entry dbs
      /\ find (ResourcesFactory.adaptsDatabase entry) (registeredAdapters w)
         = None).
  { intros arg w dbs ls Hd Hl Hbad.
    destruct (@convertDatabases_unmatched (effectiveOptions arg w)
                (registeredAdapters w) dbs Hbad)
      as (entry & Hthrow & Hin & Hnone).
    exists entry. split; [|auto].
    rewrite AdminBro_new_outcome, Hd, Hl.
    unfold ResourcesFactory.buildResources. now rewrite Hthrow. }
  assert (Hown : forall arg w e,
    snd (AdminBro_new arg w) = Throws e ->
    ResourcesFactory.buildResources (effectiveOptions arg w)
      (registeredAdapters w)
      (get "databases" (effectiveOptions arg w))
      (get "resources" (effectiveOptions arg w)) = Throws e
    \/ (arg = VNull /\ e = TypeError
        /\ exists built,
             ResourcesFactory.buildResources (effectiveOptions arg w)
               (registeredAdapters w)
               (get "databases" (effectiveOptions arg w))
               (get "resources" (effectiveOptions arg w))
             = Returns built)).
  { intros arg w e H. rewrite AdminBro_new_outcome in H. cbv zeta in H.
    destruct (ResourcesFactory.buildResources _ _ _ _) as [built|e'].
    - right. destruct arg; try discriminate.
      inversion H. eauto.
    - left. inversion H. reflexivity. }
  split; [|split; [|split; [|split]]].
  - intros arg w e eff H.
    rewrite AdminBro_new_outcome. fold eff. now rewrite H.
  - intros arg w e H eff. exact (Hown arg w e H).
  - intros o w e H eff.
    destruct (Hown (objectOf o) w e H) as [Hf|(Hnull & _)];
      [exact Hf | discriminate].
  - exact Hunmatched.
  - intros adapters o dbs Ho Hwf Hbad.
    destruct (effective_resources_array adapters o) as [ls Hls].
    apply (Hunmatched (objectOf o) (withAdapters adapters) dbs ls);
      [|exact Hls | exact Hbad].
    rewrite effective_databases by (rewrite Ho; exact Hwf).
    now rewrite Ho.
Qed.

Lemma constructor_propagates_factory_errors_witness :
  exists entry,
    snd (AdminBro_new (objectOf unknownOptions) (withAdapters [mongoAdapter]))
    = Throws (NoAdapterError entry)
    /\ In entry [blogHandle; unknownHandle]
    /\ find (ResourcesFactory.adaptsDatabase entry) [mongoAdapter] = None.
Proof.
  apply (proj2 (proj2 (proj2 (proj2 constructor_propagates_factory_errors)))
               [mongoAdapter] unknownOptions [blogHandle; unknownHandle]).
  - reflexivity.
  - reflexivity.
  - exists unknownHandle. split; [simpl; auto | reflexivity].
Defined.

(* ================================================================== *)
(** * One [defaults] object for every instance *)
(* ================================================================== *)

(** The constructor writes the merged options into the [defaults] object
    of the module, where the next construction finds them. *)
Lemma constructor_writes_defaults o w :
  defaultsObj (fst (AdminBro_new (objectOf o) w))
  = Lodash.merge (defaultsObj w) (objectOf o).
Proof. exact (effectiveOptions_merge o w). Qed.

(** Whatever root path the options of one construction supply is the
    root path that a following construction with [{}] ends up with. *)
Lemma rootPath_carries_over adapters o r :
  rootPath o = Some r ->
  let w1 := fst (AdminBro_new (objectOf o) (withAdapters adapters)) in
  get "rootPath" (effectiveOptions (objectOf noOptions) w1) = VStr r.
Proof.
  intros Hr w1. subst w1.
  rewrite effectiveOptions_merge, constructor_writes_defaults.
  cbn [withAdapters defaultsObj].
  change (objectOf noOptions) with (VObj []).
  assert (Hobj : exists d, Lodash.merge defaults (objectOf o) = VObj d)
    by (eexists; reflexivity).
  destruct Hobj as [d Hd]. rewrite Hd.
  change (Lodash.merge (VObj d) (VObj [])) with (VObj d). rewrite <- Hd.
  by_fields. reflexivity.
Qed.

(** C1, evaluated: construct an instance with [{rootPath: '/xyz-admin'}]
    and then one with [{}].  The second construction returns an instance
    whose options have the first one's [rootPath], which neither [{}] nor
    the declared [defaults] contain, and the [defaults] object is no
    longer what was declared. *)
Theorem defaults_changed_by_construction :
  let first := AdminBro_new (objectOf xyzAdmin) loaded in
  let second := AdminBro_new (objectOf noOptions) (fst first) in
  defaultsObj (fst first) <> defaults
  /\ defaultsObj (fst second) <> defaults
  /\ (exists this,
         snd second = Returns this
         /\ get "rootPath" (deref (fst second) (options this))
            = VStr "/xyz-admin")
  /\ get "rootPath" (objectOf noOptions) = VUndefined
  /\ get "rootPath" defaults = VStr "/admin".
Proof.
  cbv zeta. repeat split; try discriminate.
  eexists. split; reflexivity.
Qed.

(** X3. On a first construction, with whatever adapters registered,
    options that supply no dashboard give an instance whose
    [DashboardPage] is [DefaultDashboard]. *)
Lemma first_dashboard_defaults adapters o this :
  dashboard o = None ->
  snd (AdminBro_new (objectOf o) (withAdapters adapters)) = Returns this ->
  DashboardPage this = DefaultDashboard.
Proof.
  intros Ho H. rewrite AdminBro_new_outcome in H.
  destruct (ResourcesFactory.buildResources _ _ _ _); [|discriminate].
  unfold objectOf at 1 2 3 in H. cbv iota in H. inversion H; subst this.
  cbn [DashboardPage]. rewrite effectiveOptions_merge.
  cbn [withAdapters defaultsObj]. unfold js_or.
  by_fields. reflexivity.
Qed.

(** C8, evaluated: construct an instance with [{rootPath: '/xyz-admin'}]
    (or with [{branding: {companyName: 'Acme'}}]) and then merge [{}].
    The options of the second construction omit every field, and the
    merged [rootPath] (or [branding.companyName]) is present but is the
    first construction's value, not the declared default. *)
Theorem omitted_field_not_default_after_construction :
  let w1 := fst (AdminBro_new (objectOf xyzAdmin) loaded) in
  let w2 := fst (AdminBro_new (objectOf acme) loaded) in
  readPath ["rootPath"] (objectOf noOptions) = None
  /\ readPath ["rootPath"] (effectiveOptions (objectOf noOptions) w1)
     = Some (VStr "/xyz-admin")
  /\ readPath ["rootPath"] defaults = Some (VStr "/admin")
  /\ readPath ["branding"; "companyName"] (objectOf noOptions) = None
  /\ readPath ["branding"; "companyName"]
              (effectiveOptions (objectOf noOptions) w2)
     = Some (VStr "Acme")
  /\ readPath ["branding"; "companyName"] defaults
     = Some (VStr "Company Name").
Proof. cbv zeta. repeat split; reflexivity. Qed.

(** C10, evaluated: construct an instance with a custom dashboard and
    then one with [{}].  The second instance, whose options have no
    [dashboard], gets the first one's dashboard as its [DashboardPage],
    not [DefaultDashboard]: the [defaults.dashboard] it falls back to
    was overwritten by the first merge. *)
Theorem dashboard_fallback_is_previous_dashboard :
  let first := AdminBro_new (objectOf customDashboard) loaded in
  let second := AdminBro_new (objectOf noOptions) (fst first) in
  get "dashboard" (objectOf noOptions) = VUndefined
  /\ exists this,
       snd second = Returns this
       /\ DashboardPage this = VFun "CustomDashboard"
       /\ DashboardPage this <> DefaultDashboard.
Proof.
  cbv zeta. split; [reflexivity|].
  eexists. split; [reflexivity|]. split; [reflexivity | discriminate].
Qed.

(* ================================================================== *)
(** * More about the registry *)
(* ================================================================== *)

(** One call: nothing but the registry changes, and it grows by what the
    call accepts. *)
Lemma registerAdapter_world arg w :
  fst (registerAdapter arg w)
  = {| defaultsObj := defaultsObj w;
       registeredAdapters := registeredAdapters w ++ accepted arg |}.
Proof.
  unfold registerAdapter, accepted. destruct w as [d r].
  destruct (opt_Database arg) as [D|];
    [|cbn; now rewrite app_nil_r].
  destruct (opt_Resource arg) as [R|];
    [|cbn; now rewrite app_nil_r].
  destruct (Database_isAdapterFor D);
    [|cbn; now rewrite app_nil_r].
  destruct (Resource_isAdapterFor R); cbn; [reflexivity|].
  now rewrite app_nil_r.
Qed.

(** X1. After any series of [registerAdapter] calls the registry is the
    registry from before, followed by the pairs of the calls that were
    accepted, in the order of the calls; rejected calls leave no trace,
    and [defaults] is not touched. *)
Theorem registry_after_calls (args : list AdapterOptions) (w : world) :
  registerAll args w
  = {| defaultsObj := defaultsObj w;
       registeredAdapters := registeredAdapters w ++ flat_map accepted args |}.
Proof.
  revert w. induction args as [|arg rest IH]; intros w.
  - destruct w. cbn. now rewrite app_nil_r.
  - cbn [registerAll flat_map]. rewrite IH, registerAdapter_world.
    cbn [defaultsObj registeredAdapters]. now rewrite <- app_assoc.
Qed.

(** X2. The message of the error tells what was wrong: it is the
    "both Database and Resource" message exactly when one of the two is
    missing (whatever the other one is like), the "subclasses" message
    exactly when both are there and one lacks [isAdapterFor], and the call
    returns exactly when both are there and capable. *)
Theorem registerAdapter_message (arg : AdapterOptions) (w : world) :
  (snd (registerAdapter arg w) = Throws (Error missingAdapterPart)
   <-> opt_Database arg = None \/ opt_Resource arg = None)
  /\ (snd (registerAdapter arg w) = Throws (Error incapableAdapterPart)
      <-> exists D R,
            opt_Database arg = Some D /\ opt_Resource arg = Some R
            /\ (Database_isAdapterFor D = None
                \/ Resource_isAdapterFor R = None))
  /\ (snd (registerAdapter arg w) = Returns tt
      <-> exists D R,
            opt_Database arg = Some D /\ opt_Resource arg = Some R
            /\ Database_isAdapterFor D <> None
            /\ Resource_isAdapterFor R <> None).
Proof.
  unfold registerAdapter.
  destruct (opt_Database arg) as [D|], (opt_Resource arg) as [R|]; cbn.
  - destruct (Database_isAdapterFor D) eqn:HD,
             (Resource_isAdapterFor R) eqn:HR; cbn;
      (repeat split; intros H;
       try discriminate;
       try (destruct H as [H|H]; discriminate);
       try (destruct H as (D' & R' & HD' & HR' & H);
            inversion HD'; inversion HR'; subst D' R';
            try (destruct H as [H|H]; congruence);
            try (destruct H; congruence));
       try (exists D, R; rewrite ?HD, ?HR; repeat split;
            solve [auto | discriminate])).
  - repeat split; intros H; auto; try discriminate;
      destruct H as (? & ? & ? & ? & _); discriminate.
  - repeat split; intros H; auto; try discriminate;
      destruct H as (? & ? & ? & _); discriminate.
  - repeat split; intros H; auto; try discriminate;
      destruct H as (? & ? & ? & _); discriminate.
Qed.

(* ================================================================== *)
(** * More about the merge *)
(* ================================================================== *)

Section more_merge_facts.
Import Lodash.

Lemma merge_nothing t : merge t (VObj []) = t.
Proof. destruct t; reflexivity. Qed.

(** A merged array is as long as the longer of the two. *)
Lemma length_mergeElems f s : forall d,
  List.length (mergeElems f s d) = Nat.max (List.length s) (List.length d).
Proof.
  induction s as [|x s IH]; intros d; [reflexivity|].
  destruct d as [|y d]; cbn [mergeElems tl List.length]; rewrite IH;
    cbn [List.length Nat.max]; [now rewrite Nat.max_0_r | reflexivity].
Qed.

Lemma setKey_same k v o : lookup k o = Some v -> setKey k v o = o.
Proof.
  induction o as [|[k' v'] r IH]; simpl; [discriminate|].
  destruct (String.eqb k k') eqn:E.
  - intros H; inversion H; reflexivity.
  - intros H. now rewrite IH.
Qed.

Lemma assignMergeValue_same d k v :
  lookup k d = Some v -> assignMergeValue d k v = d.
Proof.
  intros H. unfold assignMergeValue.
  destruct v; try (now apply setKey_same).
  destruct (hasKey k d) eqn:N; [reflexivity|].
  apply hasKey_lookup in N. congruence.
Qed.

Lemma lookup_distinct k v s :
  distinct (map fst s) = true -> In (k, v) s -> lookup k s = Some v.
Proof.
  induction s as [|[k' v'] r IH]; simpl; [contradiction|].
  intros Hd Hin. apply andb_prop in Hd as [Hk Hr].
  apply negb_true_iff in Hk.
  destruct Hin as [Heq|Hin].
  - inversion Heq; subst. now rewrite String.eqb_refl.
  - destruct (String.eqb k k') eqn:E; [|auto].
    apply String.eqb_eq in E; subst k'.
    assert (existsb (String.eqb k) (map fst r) = true); [|congruence].
    apply existsb_exists. exists k. split; [|apply String.eqb_refl].
    apply in_map_iff. exists (k, v). auto.
Qed.

(** A pass over the source that rewrites every key with what it already
    holds changes nothing. *)
Lemma mergeProps_noop f s : forall d,
  (forall k sv, In (k, sv) s ->
     assignMergeValue d k
       match sv with
       | VArr _ | VObj _ => f (get k (VObj d)) sv
       | _ => sv
       end = d) ->
  mergeProps f s d = d.
Proof.
  induction s as [|[k sv] rest IH]; intros d H; [reflexivity|].
  cbn [mergeProps]. rewrite (H k sv (or_introl eq_refl)).
  apply IH. intros k' sv' Hin. apply H. now right.
Qed.

Lemma baseMergeDeep_settled sv x :
  match sv with VArr _ | VObj _ => True | _ => False end ->
  settled sv ->
  baseMergeDeep (baseMergeDeep x sv) sv = baseMergeDeep x sv.
Proof.
  intros Hkind Hsv. unfold baseMergeDeep.
  assert (Htarget :
    mergeTarget (baseMerge (mergeTarget x sv) sv) sv
    = baseMerge (mergeTarget x sv) sv).
  { destruct sv; try contradiction; destruct x; reflexivity. }
  rewrite Htarget. apply Hsv.
Qed.

Lemma mergeElems_settled s :
  Forall settled s ->
  forall d,
    mergeElems baseMergeDeep s (mergeElems baseMergeDeep s d)
    = mergeElems baseMergeDeep s d.
Proof.
  induction 1 as [|sv rest Hsv _ IH]; intros d; [reflexivity|].
  cbn [mergeElems tl]. rewrite IH. f_equal.
  destruct sv; try reflexivity;
    (apply baseMergeDeep_settled; [exact I | exact Hsv]).
Qed.

Lemma mergeProps_settled s :
  distinct (map fst s) = true ->
  Forall (fun kv => settled (snd kv)) s ->
  forall d,
    mergeProps baseMergeDeep s (mergeProps baseMergeDeep s d)
    = mergeProps baseMergeDeep s d.
Proof.
  intros Hd Hs d. apply mergeProps_noop. intros k sv Hin.
  assert (Hl : lookup k (mergeProps baseMergeDeep s d)
               = Some (slot (get k (VObj d)) sv)).
  { rewrite lookup_mergeProps by exact Hd.
    now rewrite (lookup_distinct _ _ _ Hd Hin). }
  assert (Hg : get k (VObj (mergeProps baseMergeDeep s d))
               = slot (get k (VObj d)) sv).
  { unfold get at 1. now rewrite Hl. }
  rewrite Forall_forall in Hs. specialize (Hs (k, sv) Hin). cbn in Hs.
  destruct sv; cbn [slot] in Hl, Hg |- *;
    try (apply assignMergeValue_same; exact Hl).
  - unfold assignMergeValue.
    destruct (hasKey k (mergeProps baseMergeDeep s d)) eqn:N; [reflexivity|].
    apply hasKey_lookup in N. congruence.
  - rewrite Hg, baseMergeDeep_settled by (exact I || exact Hs).
    apply assignMergeValue_same; exact Hl.
  - rewrite Hg, baseMergeDeep_settled by (exact I || exact Hs).
    apply assignMergeValue_same; exact Hl.
Qed.

(** Merging a well-formed source twice is merging it once. *)
Lemma baseMerge_settled sv : wellFormed sv = true -> settled sv.
Proof.
  induction sv as [| | | | | |l IH|l IH] using value_nested_ind;
    intros Hwf t; try reflexivity.
  - destruct t; try reflexivity. rewrite !baseMerge_arrays. f_equal.
    apply mergeElems_settled.
    simpl in Hwf. rewrite forallb_forall in Hwf.
    rewrite Forall_forall in IH |- *. auto.
  - destruct t; try reflexivity. rewrite !baseMerge_objects. f_equal.
    simpl in Hwf. apply andb_prop in Hwf as [Hkeys Hvals].
    apply mergeProps_settled; [exact Hkeys|].
    rewrite forallb_forall in Hvals. rewrite Forall_forall in IH |- *. auto.
Qed.

End more_merge_facts.

(* ================================================================== *)
(** * More about construction *)
(* ================================================================== *)

(** A top-level option that is given as a string, a boolean or a class is
    what the merged options hold under that key, whatever was there. *)
Lemma merged_scalar k v d o :
  lookup k (propsOf o) = Some v ->
  match v with VUndefined | VArr _ | VObj _ => False | _ => True end ->
  get k (Lodash.merge (VObj d) (objectOf o)) = v.
Proof.
  intros Hk Hv. unfold Lodash.merge, objectOf.
  rewrite baseMerge_objects. unfold get. rewrite lookup_merged, Hk.
  destruct v; try contradiction; reflexivity.
Qed.

(** A top-level option that is not given is left alone. *)
Lemma merged_omitted k t o :
  lookup k (propsOf o) = None ->
  get k (Lodash.merge t (objectOf o)) = get k t.
Proof.
  intros Hk. destruct t; try reflexivity.
  unfold Lodash.merge, objectOf. rewrite baseMerge_objects. unfold get.
  now rewrite lookup_merged, Hk.
Qed.

(** Where there is neither an object nor an array, a plain object is
    merged into a fresh [{}]. *)
Lemma baseMergeDeep_fresh x s :
  match x with VObj _ | VArr _ => False | _ => True end ->
  Lodash.baseMergeDeep x (VObj s)
  = VObj (Lodash.mergeProps Lodash.baseMergeDeep s []).
Proof. destruct x; try contradiction; reflexivity. Qed.

Lemma lookup_rootPath o :
  lookup "rootPath" (propsOf o) = option_map VStr (rootPath o).
Proof. by_fields; reflexivity. Qed.

Lemma lookup_logoutPath o :
  lookup "logoutPath" (propsOf o) = option_map VStr (logoutPath o).
Proof. by_fields; reflexivity. Qed.

Lemma lookup_loginPath o :
  lookup "loginPath" (propsOf o) = option_map VStr (loginPath o).
Proof. by_fields; reflexivity. Qed.

Lemma lookup_dashboard o :
  lookup "dashboard" (propsOf o) = option_map VFun (dashboard o).
Proof. by_fields; reflexivity. Qed.

(** X4. A construction that throws has no rollback: the root path its
    options supplied stays in [defaults], and a following construction
    with [{}] ends up with it. *)
Theorem failed_construction_leaves_options
        (o : AdminBroOptions) (w : world) (d : props) (r : string) (e : exn) :
  defaultsObj w = VObj d ->
  rootPath o = Some r ->
  snd (AdminBro_new (objectOf o) w) = Throws e ->
  let w1 := fst (AdminBro_new (objectOf o) w) in
  get "rootPath" (defaultsObj w1) = VStr r
  /\ get "rootPath" (effectiveOptions (objectOf noOptions) w1) = VStr r.
Proof.
  intros Hd Hr _ w1. subst w1.
  rewrite effectiveOptions_merge, constructor_writes_defaults, Hd.
  change (objectOf noOptions) with (VObj []). rewrite merge_nothing.
  assert (H : get "rootPath" (Lodash.merge (VObj d) (objectOf o)) = VStr r).
  { apply merged_scalar; [|exact I]. now rewrite lookup_rootPath, Hr. }
  auto.
Qed.

Lemma failed_construction_leaves_options_witness :
  let w1 := fst (AdminBro_new (objectOf xyzUnknown)
                              (withAdapters [mongoAdapter])) in
  get "rootPath" (defaultsObj w1) = VStr "/xyz-admin"
  /\ get "rootPath" (effectiveOptions (objectOf noOptions) w1)
     = VStr "/xyz-admin".
Proof.
  apply (@failed_construction_leaves_options
           xyzUnknown (withAdapters [mongoAdapter])
           match defaults with VObj d => d | _ => [] end
           "/xyz-admin" (NoAdapterError unknownHandle)).
  - reflexivity.
  - reflexivity.
  - reflexivity.
Defined.

(** X5. Constructing with the same (well-formed) options a second time
    leaves the module state as the first construction left it. *)
Theorem repeated_construction_changes_nothing (arg : value) (w : world) :
  wellFormed arg = true ->
  fst (AdminBro_new arg (fst (AdminBro_new arg w)))
  = fst (AdminBro_new arg w).
Proof.
  intros Hwf. rewrite !AdminBro_new_world.
  cbn [defaultsObj registeredAdapters]. f_equal.
  unfold Lodash.merge. apply baseMerge_settled.
  destruct arg; try reflexivity; exact Hwf.
Qed.

Lemma repeated_construction_changes_nothing_witness :
  fst (AdminBro_new (objectOf blogOptions)
         (fst (AdminBro_new (objectOf blogOptions)
                            (withAdapters [mongoAdapter]))))
  = fst (AdminBro_new (objectOf blogOptions) (withAdapters [mongoAdapter])).
Proof.
  apply (@repeated_construction_changes_nothing
           (objectOf blogOptions) (withAdapters [mongoAdapter])).
  reflexivity.
Defined.

(** X6. In any module state, a field of [defaults] that the options do
    not supply is left as it was found: the merged options hold what the
    [defaults] object held before the construction. *)
Theorem omitted_fields_untouched
        (o : AdminBroOptions) (w : world) (path : list string) :
  In path (fieldPaths defaults) ->
  readPath path (objectOf o) = None ->
  readPath path (effectiveOptions (objectOf o) w)
  = readPath path (defaultsObj w).
Proof.
  intros Hin. rewrite effectiveOptions_merge.
  rewrite fields_of_defaults in Hin. simpl in Hin.
  destruct (defaultsObj w) as [| | | | | | |d]; try reflexivity.
  repeat (destruct Hin as [<-|Hin]); try contradiction.
  all: by_fields; try discriminate; try reflexivity.
  all: intros _;
    match goal with
    | |- context [lookup "branding" ?dd] =>
        destruct (lookup "branding" dd) as [[]|]
    | |- context [lookup "assets" ?dd] =>
        destruct (lookup "assets" dd) as [[]|]
    end;
    rewrite ?baseMergeDeep_fresh by exact I;
    by_fields; reflexivity.
Qed.

Lemma omitted_fields_untouched_witness :
  let w1 := fst (AdminBro_new (objectOf twoStyles) loaded) in
  readPath ["assets"; "styles"] (effectiveOptions (objectOf acme) w1)
  = readPath ["assets"; "styles"] (defaultsObj w1).
Proof.
  apply (@omitted_fields_untouched
           acme (fst (AdminBro_new (objectOf twoStyles) loaded))
           ["assets"; "styles"]).
  - simpl. auto 12.
  - reflexivity.
Defined.

(** X7. In any module state (with [defaults] an object, as it always
    is), a root path, logout path, login path or dashboard that the
    options supply is what the merged options hold, whatever earlier
    constructions left there. *)
Theorem supplied_scalars_take_effect
        (o : AdminBroOptions) (w : world) (d : props) :
  defaultsObj w = VObj d ->
  let eff := effectiveOptions (objectOf o) w in
  (forall r, rootPath o = Some r -> get "rootPath" eff = VStr r)
  /\ (forall r, logoutPath o = Some r -> get "logoutPath" eff = VStr r)
  /\ (forall r, loginPath o = Some r -> get "loginPath" eff = VStr r)
  /\ (forall c, dashboard o = Some c -> get "dashboard" eff = VFun c).
Proof.
  intros Hd eff. subst eff. rewrite effectiveOptions_merge, Hd.
  repeat split; intros r Hr; (apply merged_scalar; [|exact I]).
  - now rewrite lookup_rootPath, Hr.
  - now rewrite lookup_logoutPath, Hr.
  - now rewrite lookup_loginPath, Hr.
  - now rewrite lookup_dashboard, Hr.
Qed.

Lemma supplied_scalars_take_effect_witness :
  get "rootPath"
      (effectiveOptions (objectOf xyzAdmin)
         (fst (AdminBro_new (objectOf customDashboard) loaded)))
  = VStr "/xyz-admin".
Proof.
  apply (proj1 (@supplied_scalars_take_effect
                  xyzAdmin
                  (fst (AdminBro_new (objectOf customDashboard) loaded))
                  match defaultsObj
                          (fst (AdminBro_new (objectOf customDashboard) loaded))
                  with VObj d => d | _ => [] end
                  eq_refl)).
  reflexivity.
Defined.

(** Beyond the length of the source, a merged array holds what the
    destination held. *)
Lemma skipn_mergeElems f s : forall d,
  skipn (List.length s) (Lodash.mergeElems f s d) = skipn (List.length s) d.
Proof.
  induction s as [|x s IH]; intros d; [reflexivity|].
  destruct d as [|y d]; cbn [Lodash.mergeElems tl List.length skipn].
  - rewrite IH. now rewrite skipn_nil.
  - apply IH.
Qed.

(** X8. An array in [defaults] never gets shorter: when the options
    supply [assets.styles], [assets.scripts], [databases] or [resources],
    the merged array is as long as the longer of the supplied array and
    the array found in [defaults], and beyond the supplied length it still
    holds what was found there. *)
Theorem merged_arrays_never_shrink (o : AdminBroOptions) (w : world) :
  let eff := effectiveOptions (objectOf o) w in
  (forall a u d,
      assets o = Some a -> styles a = Some u ->
      readPath ["assets"; "styles"] (defaultsObj w) = Some (VArr d) ->
      exists r,
        readPath ["assets"; "styles"] eff = Some (VArr r)
        /\ List.length r = Nat.max (List.length u) (List.length d)
        /\ skipn (List.length u) r = skipn (List.length u) d)
  /\ (forall a u d,
        assets o = Some a -> scripts a = Some u ->
        readPath ["assets"; "scripts"] (defaultsObj w) = Some (VArr d) ->
        exists r,
          readPath ["assets"; "scripts"] eff = Some (VArr r)
          /\ List.length r = Nat.max (List.length u) (List.length d)
          /\ skipn (List.length u) r = skipn (List.length u) d)
  /\ (forall u d,
        databases o = Some u ->
        readPath ["databases"] (defaultsObj w) = Some (VArr d) ->
        exists r,
          readPath ["databases"] eff = Some (VArr r)
          /\ List.length r = Nat.max (List.length u) (List.length d)
          /\ skipn (List.length u) r = skipn (List.length u) d)
  /\ (forall u d,
        listed o = Some u ->
        readPath ["resources"] (defaultsObj w) = Some (VArr d) ->
        exists r,
          readPath ["resources"] eff = Some (VArr r)
          /\ List.length r = Nat.max (List.length u) (List.length d)
          /\ skipn (List.length u) r = skipn (List.length u) d).
Proof.
  intros eff. subst eff. rewrite effectiveOptions_merge.
  destruct (defaultsObj w) as [| | | | | | |d0];
    try (repeat split; intros; discriminate).
  repeat split.
  - intros a u d Ha Hu Hd. cbn [readPath] in Hd.
    destruct (lookup "assets" d0) as [[| | | | | | |da]|] eqn:La;
      try discriminate.
    destruct (lookup "styles" da) as [x|] eqn:Ls; try discriminate.
    inversion Hd; subst x. by_fields.
    eexists. split; [reflexivity|].
    rewrite <- (length_map VStr u).
    split; [apply length_mergeElems | apply skipn_mergeElems].
  - intros a u d Ha Hu Hd. cbn [readPath] in Hd.
    destruct (lookup "assets" d0) as [[| | | | | | |da]|] eqn:La;
      try discriminate.
    destruct (lookup "scripts" da) as [x|] eqn:Ls; try discriminate.
    inversion Hd; subst x. by_fields.
    eexists. split; [reflexivity|].
    rewrite <- (length_map VStr u).
    split; [apply length_mergeElems | apply skipn_mergeElems].
  - intros u d Hu Hd. cbn [readPath] in Hd.
    destruct (lookup "databases" d0) as [x|] eqn:La; try discriminate.
    inversion Hd; subst x. by_fields.
    eexists. split; [reflexivity|].
    split; [apply length_mergeElems | apply skipn_mergeElems].
  - intros u d Hu Hd. cbn [readPath] in Hd.
    destruct (lookup "resources" d0) as [x|] eqn:La; try discriminate.
    inversion Hd; subst x. by_fields.
    eexists. split; [reflexivity|].
    split; [apply length_mergeElems | apply skipn_mergeElems].
Qed.

Lemma merged_arrays_never_shrink_witness :
  let w1 := fst (AdminBro_new (objectOf twoStyles) loaded) in
  exists r,
    readPath ["assets"; "styles"] (effectiveOptions (objectOf oneStyle) w1)
    = Some (VArr r)
    /\ List.length r = Nat.max 1 2
    /\ skipn 1 r = skipn 1 [VStr "/a.css"; VStr "/b.css"].
Proof.
  apply (proj1 (merged_arrays_never_shrink
                  oneStyle (fst (AdminBro_new (objectOf twoStyles) loaded)))
               {| styles := Some ["/c.css"]; scripts := None |}
               ["/c.css"] [VStr "/a.css"; VStr "/b.css"]);
    reflexivity.
Defined.

(** X9. Constructing with no argument is constructing with [{}], and
    neither changes the module state; the instance's [DashboardPage] is
    then whatever [defaults.dashboard] holds at that moment. *)
Theorem empty_options_change_nothing (w : world) :
  AdminBro_new VUndefined w = AdminBro_new (VObj []) w
  /\ fst (AdminBro_new (VObj []) w) = w
  /\ (forall this,
        snd (AdminBro_new (VObj []) w) = Returns this ->
        DashboardPage this = get "dashboard" (defaultsObj w)).
Proof.
  split; [reflexivity|].
  assert (Hw : fst (AdminBro_new (VObj []) w) = w).
  { rewrite AdminBro_new_world, merge_nothing. now destruct w. }
  split; [exact Hw|].
  intros this H. rewrite AdminBro_new_outcome in H.
  unfold effectiveOptions in H. rewrite Hw in H.
  destruct (ResourcesFactory.buildResources _ _ _ _); [|discriminate].
  inversion H. reflexivity.
Qed.

Lemma empty_options_change_nothing_witness :
  DashboardPage
    {| resources := []; options := Ref_defaults;
       DashboardPage := VFun "CustomDashboard" |}
  = get "dashboard"
        (defaultsObj (fst (AdminBro_new (objectOf customDashboard) loaded))).
Proof.
  apply (proj2 (proj2 (empty_options_change_nothing
                         (fst (AdminBro_new (objectOf customDashboard)
                                            loaded))))).
  reflexivity.
Defined.

(** X10. [new AdminBro(null)] never gives an instance: the default
    [{}] only stands in for [undefined], so the constructor throws (at
    the latest on reading [options.dashboard]).  The module state is left
    as it was. *)
Theorem null_options_never_construct (w : world) :
  fst (AdminBro_new VNull w) = w
  /\ (exists e, snd (AdminBro_new VNull w) = Throws e)
  /\ (forall built,
        ResourcesFactory.buildResources (defaultsObj w) (registeredAdapters w)
          (get "databases" (defaultsObj w)) (get "resources" (defaultsObj w))
        = Returns built ->
        snd (AdminBro_new VNull w) = Throws TypeError).
Proof.
  assert (Hw : fst (AdminBro_new VNull w) = w).
  { rewrite AdminBro_new_world. destruct w as [[] r]; reflexivity. }
  split; [exact Hw|].
  rewrite AdminBro_new_outcome. unfold effectiveOptions. rewrite Hw.
  split.
  - destruct (ResourcesFactory.buildResources _ _ _ _); eauto.
  - intros built ->. reflexivity.
Qed.

Lemma null_options_never_construct_witness :
  snd (AdminBro_new VNull loaded) = Throws TypeError.
Proof.
  apply (proj2 (proj2 (null_options_never_construct loaded)) []).
  reflexivity.
Defined.

(** What the constructor makes of [options.dashboard || defaults.dashboard]. *)
Lemma instance_dashboard o w this :
  snd (AdminBro_new (objectOf o) w) = Returns this ->
  DashboardPage this
  = js_or (get "dashboard" (objectOf o))
          (get "dashboard" (effectiveOptions (objectOf o) w)).
Proof.
  intros H. rewrite AdminBro_new_outcome in H.
  destruct (ResourcesFactory.buildResources _ _ _ _); [|discriminate].
  change (objectOf o) with (VObj (propsOf o)) in H. cbv iota in H.
  inversion H. reflexivity.
Qed.

(** X11. In any module state (with [defaults] an object, as it always
    is), the [DashboardPage] of an instance constructed from options of
    the documented shape is the [dashboard] of the instance's own
    options: the two cannot differ. *)
Theorem DashboardPage_is_options_dashboard
        (o : AdminBroOptions) (w w' : world) (d : props) (this : AdminBro) :
  defaultsObj w = VObj d ->
  AdminBro_new (objectOf o) w = (w', Returns this) ->
  DashboardPage this = get "dashboard" (deref w' (options this)).
Proof.
  intros Hd H.
  destruct (options_are_defaults _ _ H) as [-> ->].
  rewrite (@instance_dashboard o w this) by (now rewrite H).
  assert (Hgiven : get "dashboard" (objectOf o)
                   = match dashboard o with
                     | Some c => VFun c
                     | None => VUndefined
                     end).
  { unfold objectOf, get. rewrite lookup_dashboard.
    now destruct (dashboard o). }
  rewrite Hgiven, effectiveOptions_merge, Hd.
  destruct (dashboard o) as [c|] eqn:Hc; [|reflexivity].
  unfold js_or. cbn [truthy]. symmetry.
  apply merged_scalar; [|exact I].
  now rewrite lookup_dashboard, Hc.
Qed.

Lemma DashboardPage_is_options_dashboard_witness :
  DashboardPage
    {| resources := []; options := Ref_defaults;
       DashboardPage := VFun "CustomDashboard" |}
  = get "dashboard"
      (deref (fst (AdminBro_new (objectOf customDashboard) loaded))
             (options {| resources := []; options := Ref_defaults;
                         DashboardPage := VFun "CustomDashboard" |})).
Proof.
  apply (@DashboardPage_is_options_dashboard
           customDashboard loaded
           (fst (AdminBro_new (objectOf customDashboard) loaded))
           match defaults with VObj d => d | _ => [] end
           {| resources := []; options := Ref_defaults;
              DashboardPage := VFun "CustomDashboard" |});
    reflexivity.
Defined.

(** The object bound to [defaults] stays an object. *)
Lemma defaults_stays_object arg w d :
  defaultsObj w = VObj d ->
  exists d', defaultsObj (fst (AdminBro_new arg w)) = VObj d'.
Proof.
  intros Hd. rewrite AdminBro_new_world. cbn [defaultsObj]. rewrite Hd.
  unfold Lodash.merge. destruct arg; cbn; eauto.
Qed.

Lemma sound_loaded : sound loaded.
Proof.
  split; [eexists; reflexivity|]. split; [auto | constructor].
Qed.

(** X12. Whatever series of constructions and registrations is made,
    with whatever arguments, and whether they return or throw, the module
    state stays sound: [defaults] is still an object with every top-level
    key it was declared with, and every registered pair has
    [isAdapterFor] on both classes. *)
Theorem module_stays_sound (calls : list call) (w : world) :
  sound w -> sound (run calls w).
Proof.
  revert w. induction calls as [|[arg|arg] rest IH]; intros w Hw;
    [exact Hw | |]; cbn [run]; apply IH;
    destruct Hw as ([d Hd] & Hkeys & Hcap).
  - split; [exact (defaults_stays_object arg _ Hd)|].
    split.
    + intros k Hk. apply construction_keeps_keys. auto.
    + now rewrite AdminBro_new_world.
  - rewrite registerAdapter_world. cbn [defaultsObj registeredAdapters].
    split; [eauto|]. split; [exact Hkeys|].
    rewrite <- (registerAdapter_world arg w).
    now apply registered_adapters_capable.
Qed.

Lemma module_stays_sound_witness :
  sound (run [ Register (register mongoAdapter);
               New (objectOf xyzUnknown);
               New VNull;
               Register {| opt_Database := Some anyDatabase;
                           opt_Resource := Some plainResource |};
               New (objectOf twoStyles) ]
             loaded).
Proof.
  apply (module_stays_sound
           [ Register (register mongoAdapter);
             New (objectOf xyzUnknown);
             New VNull;
             Register {| opt_Database := Some anyDatabase;
                         opt_Resource := Some plainResource |};
             New (objectOf twoStyles) ]).
  exact sound_loaded.
Defined.

Lemma first_dashboard_defaults_witness :
  DashboardPage blogAdmin = DefaultDashboard.
Proof.
  apply (@first_dashboard_defaults [mongoAdapter] blogOptions blogAdmin);
    reflexivity.
Defined.

Lemma registerAdapter_message_witness :
  snd (registerAdapter
         {| opt_Database := None; opt_Resource := Some plainResource |}
         loaded)
  = Throws (Error missingAdapterPart).
Proof.
  apply (proj1 (registerAdapter_message
                  {| opt_Database := None; opt_Resource := Some plainResource |}
                  loaded)).
  left. reflexivity.
Defined.

(** A start-up with four registrations, two of them rejected. *)
Example registry_after_startup :
  registeredAdapters (registerAll startupCalls loaded)
  = [mongoAdapter; catchAllAdapter].
Proof. reflexivity. Qed.
